(** * RemoteEdit: a shallow embedding of [RemoteEdit.py]

    The plugin copies one remote file to a local temporary copy with the
    command line [scp], opens it in the editor, pushes it back on every
    save and removes the local copy when the view is closed.

    Python values are modelled as follows.
    - [str] is [string]; the text is taken as the UTF-8 bytes of the
      Python string.  Every needle the code searches for is plain ASCII,
      so a byte-wise search finds it exactly where the search by code
      points does.
    - The values that settings files and view settings hold are [json].
    - A [dict] is an association list in insertion order with unique
      keys; [dict_set] keeps it so.
    - The editor window, the local file system and the messages shown to
      the user form the [world], threaded through a state and exception
      monad.
    - The built-ins whose result depends on tables of Python itself are
      parameters of the plugin: [str()] on a value that is not a string,
      [str.isdigit] and [int].  The examples run on ASCII text with
      [PyStr.ascii_isdigit] and [PyStr.ascii_int].
    - [log] only prints when the [debug] setting is on and is left out. *)

From Stdlib Require Import String Ascii List ZArith NArith Bool Arith Lia.
From Stdlib Require Import Sorting.Sorted Sorting.Permutation.
Import ListNotations.
Local Open Scope string_scope.
Local Open Scope list_scope.

(** ** Python strings *)

Module PyStr.

(** [c.lower()] on one ASCII character; other bytes are left alone. *)
Definition lower_ascii (c : ascii) : ascii :=
  let n := nat_of_ascii c in
  if (65 <=? n)%nat && (n <=? 90)%nat then ascii_of_nat (n + 32) else c.

(** [s.lower()]. *)
Fixpoint lower (s : string) : string :=
  match s with
  | EmptyString => EmptyString
  | String c r => String (lower_ascii c) (lower r)
  end.

(** [needle in s]. *)
Fixpoint contains (needle s : string) : bool :=
  String.prefix needle s ||
  match s with
  | EmptyString => false
  | String _ r => contains needle r
  end.

(** [s.find(c) == -1] for a one-character needle. *)
Definition lacks (c : ascii) (s : string) : bool :=
  negb (contains (String c EmptyString) s).

(** [bool(s)]: a string is true when it is not empty. *)
Definition nonempty (s : string) : bool :=
  match s with EmptyString => false | String _ _ => true end.

(** [s.split(c, 1)] when [c] occurs in [s]: the text before the first
    occurrence and the text after it.  [None] when [c] does not occur. *)
Fixpoint split_first (c : ascii) (s : string) : option (string * string) :=
  match s with
  | EmptyString => None
  | String a r =>
      if Ascii.eqb a c then Some (EmptyString, r)
      else match split_first c r with
           | Some (h, t) => Some (String a h, t)
           | None => None
           end
  end.

Definition is_digit (c : ascii) : bool :=
  let n := nat_of_ascii c in (48 <=? n)%nat && (n <=? 57)%nat.

Fixpoint all_digits (s : string) : bool :=
  match s with
  | EmptyString => true
  | String c r => is_digit c && all_digits r
  end.

(** [s.isdigit()] on ASCII text: at least one character, all of them
    among 0 to 9.  Python's test also holds for the digits of other
    scripts; the plugin model takes the test as a parameter and the
    examples, which are ASCII, run it with this one. *)
Definition ascii_isdigit (s : string) : bool := nonempty s && all_digits s.

Fixpoint int_from (acc : N) (s : string) : N :=
  match s with
  | EmptyString => acc
  | String c r => int_from (10 * acc + (N.of_nat (nat_of_ascii c) - 48)) r
  end.

(** [int(s)] on ASCII text: the decimal reading of a string of the
    digits 0 to 9, and the [ValueError] of anything else. *)
Definition ascii_int (s : string) : option N :=
  if ascii_isdigit s then Some (int_from 0 s) else None.

(** The text after the last occurrence of [c], the whole of [s] when
    there is none: [s[s.rfind(c) + 1:]]. *)
Fixpoint after_last (c : ascii) (s : string) : string :=
  match s with
  | EmptyString => EmptyString
  | String a r =>
      if contains (String c EmptyString) r then after_last c r
      else if Ascii.eqb a c then r else s
  end.

(** The text up to and including the last occurrence of [c], empty when
    there is none: [s[:s.rfind(c) + 1]]. *)
Fixpoint upto_last (c : ascii) (s : string) : string :=
  match s with
  | EmptyString => EmptyString
  | String a r =>
      if contains (String c EmptyString) r then String a (upto_last c r)
      else if Ascii.eqb a c then String a EmptyString else EmptyString
  end.

(** [s.rstrip(c)]. *)
Fixpoint rstrip (c : ascii) (s : string) : string :=
  match s with
  | EmptyString => EmptyString
  | String a r =>
      match rstrip c r with
      | EmptyString => if Ascii.eqb a c then EmptyString else String a EmptyString
      | r' => String a r'
      end
  end.

(** [s.endswith(c)]. *)
Fixpoint ends_with (c : ascii) (s : string) : bool :=
  match s with
  | EmptyString => false
  | String a EmptyString => Ascii.eqb a c
  | String _ r => ends_with c r
  end.

End PyStr.

(** ** [os.path] (the POSIX flavour) *)

Module OsPath.

Definition sep : ascii := "/"%char.

(** [os.path.basename(p)]. *)
Definition basename (p : string) : string := PyStr.after_last sep p.

(** [os.path.dirname(p)]: the head up to the last slash, without its
    trailing slashes unless it consists of slashes only. *)
Definition dirname (p : string) : string :=
  let head := PyStr.upto_last sep p in
  match PyStr.rstrip sep head with
  | EmptyString => head
  | stripped => stripped
  end.

(** [os.path.join(a, b)]. *)
Definition join (a b : string) : string :=
  if String.prefix (String sep EmptyString) b then b
  else if negb (PyStr.nonempty a) || PyStr.ends_with sep a then (a ++ b)%string
  else (a ++ String sep EmptyString ++ b)%string.

End OsPath.

(** ** JSON values and dicts *)

Local Set Warnings "-register-all".

Inductive json : Type :=
| JNull
| JBool (b : bool)
| JNum (n : Z)
| JStr (s : string)
| JList (l : list json)
| JDict (d : list (string * json)).

Definition dict : Type := list (string * json).

(** Python truth value of a value. *)
Definition truthy (v : json) : bool :=
  match v with
  | JNull => false
  | JBool b => b
  | JNum n => negb (n =? 0)%Z
  | JStr s => PyStr.nonempty s
  | JList l => match l with [] => false | _ => true end
  | JDict d => match d with [] => false | _ => true end
  end.

(** [v is None]. *)
Definition is_none (v : json) : bool :=
  match v with JNull => true | _ => false end.

(** [isinstance(v, bool)]. *)
Definition is_bool (v : json) : bool :=
  match v with JBool _ => true | _ => false end.

Fixpoint dict_find (k : string) (d : dict) : option json :=
  match d with
  | [] => None
  | (k', v) :: r => if String.eqb k' k then Some v else dict_find k r
  end.

(** [k in d], also [settings.has(k)]. *)
Definition dict_has (k : string) (d : dict) : bool :=
  match dict_find k d with Some _ => true | None => false end.

(** [d.get(k)]: [None] when the key is missing. *)
Definition dict_get (k : string) (d : dict) : json :=
  match dict_find k d with Some v => v | None => JNull end.

(** [d.get(k, default)]. *)
Definition dict_get_default (k : string) (default : json) (d : dict) : json :=
  match dict_find k d with Some v => v | None => default end.

(** [d[k] = v]. *)
Fixpoint dict_set (k : string) (v : json) (d : dict) : dict :=
  match d with
  | [] => [(k, v)]
  | (k', v') :: r =>
      if String.eqb k' k then (k, v) :: r else (k', v') :: dict_set k v r
  end.

(** ** [get_settings] *)

(** The dict [get_settings] returns. *)
Record settings : Type := mkSettings {
  create_if_missing : json;
  ssh_configs : dict
}.

(** One turn of the loop of [get_settings].  The accumulator holds the
    local variable [create_if_missing] and the [settings] dict.  A layer
    that is [None] is skipped by [continue]. *)
Definition layer_step (acc : json * settings) (sub_settings : option dict)
  : json * settings :=
  match sub_settings with
  | None => acc
  | Some d =>
      let sub_settings := if negb (truthy (JDict d)) then [] else d in
      let '(cim, s) := acc in
      let '(cim, s) :=
        if negb (is_none cim) then
          let c := dict_get "create_if_missing" sub_settings in
          let c := if negb (is_bool c) then JBool false else c in
          (c, mkSettings c (ssh_configs s))
        else (cim, s) in
      let t := dict_get "ssh_configs" sub_settings in
      let t := match t with JDict t => t | _ => [] end in
      (cim, mkSettings (create_if_missing s) t)
  end.

(** The body of [get_settings] over the list of layers it iterates. *)
Definition get_settings_from (layers : list (option dict)) (cim : json)
  : settings :=
  snd (fold_left layer_step layers (cim, mkSettings cim [])).

(** [get_settings(window, create_if_missing)]: [global_settings] is
    what [sublime.load_settings('RemoteEdit.sublime-settings')] holds,
    [project] is [window.project_data().get('remote_edit')]. *)
Definition get_settings (global_settings : dict) (project : option dict)
  (cim : json) : settings :=
  get_settings_from [Some global_settings; project] cim.

(** ** The world: views, local file system, what the user is shown *)

(** The exceptions the modelled code can end with. *)
Inductive exn : Type :=
| AttributeError
| TypeError
| FileNotFoundError
| IsADirectoryError
| OSError
| ValueError.

(** The local file system: the directories and the regular files with
    their contents.  Paths are compared as strings; [.], [..] and links
    are not resolved. *)
Record filesystem : Type := mkFs {
  dirs : list string;
  files : list (string * string)
}.

Definition is_dir (p : string) (f : filesystem) : bool :=
  existsb (String.eqb p) (dirs f).

Definition is_file (p : string) (f : filesystem) : bool :=
  existsb (fun e => String.eqb p (fst e)) (files f).

(** A path with trailing slashes names the directory without them. *)
Definition strip_slashes (p : string) : string :=
  match PyStr.rstrip OsPath.sep p with
  | EmptyString => p
  | q => q
  end.

(** [os.path.exists(p)]. *)
Definition path_exists (p : string) (f : filesystem) : bool :=
  is_file p f || is_dir (strip_slashes p) f.

(** Something lives directly inside directory [d]. *)
Definition has_entries (d : string) (f : filesystem) : bool :=
  existsb (fun e => String.eqb (OsPath.dirname (fst e)) d) (files f) ||
  existsb (fun q => String.eqb (OsPath.dirname q) d && negb (String.eqb q d))
          (dirs f).

(** The files other than [p]. *)
Definition remove_file (p : string) (f : filesystem) : filesystem :=
  mkFs (dirs f) (filter (fun e => negb (String.eqb p (fst e))) (files f)).

(** [open(p, 'w').close()]: an empty file at [p], replacing what was
    there.  The directory of [p] must exist (the empty directory name is
    the current directory). *)
Definition fs_create (p : string) (f : filesystem) : exn + filesystem :=
  if is_dir (strip_slashes p) f then inl IsADirectoryError
  else if negb (PyStr.nonempty (OsPath.dirname p)) || is_dir (OsPath.dirname p) f
  then inr (mkFs (dirs f) ((p, EmptyString) :: files (remove_file p f)))
  else inl FileNotFoundError.

(** [os.unlink(p)]. *)
Definition fs_unlink (p : string) (f : filesystem) : exn + filesystem :=
  if is_file p f then inr (remove_file p f)
  else if is_dir (strip_slashes p) f then inl IsADirectoryError
  else inl FileNotFoundError.

(** [os.rmdir(d)]: the directory must exist and be empty. *)
Definition fs_rmdir (d : string) (f : filesystem) : exn + filesystem :=
  if is_dir d f then
    if has_entries d f then inl OSError
    else inr (mkFs (filter (fun q => negb (String.eqb d q)) (dirs f)) (files f))
  else inl FileNotFoundError.

(** What the plugin does to the outside, in the order it does it. *)
Inductive event : Type :=
| Spawn (command : string)
| ErrorMessage (msg : string)
| StatusMessage (msg : string)
| Mkdtemp (d : string)
| Create (p : string)
| Unlink (p : string)
| Rmdir (d : string)
| OpenFile (p : string)
| FocusView (i : nat)
| ClearSelection (i : nat)
| ShowLine (i : nat) (row : N).

(** An editor view with its settings object. *)
Record view : Type := mkView {
  file_name : string;
  vsettings : dict
}.

(** [views] is [window.views()], [fs] the local file system, [trace]
    the events so far, oldest first. *)
Record world : Type := mkWorld {
  views : list view;
  fs : filesystem;
  trace : list event
}.

(** What one run of the external [scp] executable does: its exit status,
    what it wrote to standard error and the local file system it leaves
    behind. *)
Record completed : Type := mkCompleted {
  returncode : Z;
  stderr : string;
  fs_after : filesystem
}.

Definition process : Type := filesystem -> completed.

(** ** State and exception monad *)

Inductive result (A : Type) : Type :=
| Ok (a : A) (w : world)
| Raised (e : exn) (w : world).
Arguments Ok {A} a w.
Arguments Raised {A} e w.

Definition M (A : Type) : Type := world -> result A.

Definition ret {A : Type} (a : A) : M A := fun w => Ok a w.

Definition bind {A B : Type} (m : M A) (k : A -> M B) : M B :=
  fun w => match m w with
           | Ok a w' => k a w'
           | Raised e w' => Raised e w'
           end.

Definition raise {A : Type} (e : exn) : M A := fun w => Raised e w.

Declare Scope py_scope.
Delimit Scope py_scope with py.
Notation "x <- m ;; k" := (bind m (fun x => k))
  (at level 61, m at next level, right associativity) : py_scope.
Notation "m ;; k" := (bind m (fun _ => k))
  (at level 61, right associativity) : py_scope.
Local Open Scope py_scope.

(** The world with one more event in its trace. *)
Definition record (e : event) (w : world) : world :=
  mkWorld (views w) (fs w) (trace w ++ [e]).

Definition emit (e : event) : M unit := fun w => Ok tt (record e w).

Definition get_views : M (list view) := fun w => Ok (views w) w.

(** A file system operation: it is recorded in the trace when it
    succeeds and raises without any effect when it fails. *)
Definition fs_op (op : filesystem -> exn + filesystem) (e : event) : M unit :=
  fun w => match op (fs w) with
           | inr f => Ok tt (mkWorld (views w) f (trace w ++ [e]))
           | inl x => Raised x w
           end.

(** The world with the new directory [d]. *)
Definition after_mkdtemp (d : string) (w : world) : world :=
  mkWorld (views w) (mkFs (dirs (fs w) ++ [d]) (files (fs w)))
          (trace w ++ [Mkdtemp d]).

(** [tempfile.mkdtemp()]; [d] is the name the call comes up with. *)
Definition mkdtemp (d : string) : M string :=
  fun w => Ok d (after_mkdtemp d w).

Definition exists_path (p : string) : M bool :=
  fun w => Ok (path_exists p (fs w)) w.

(** The world once the spawned process has exited. *)
Definition after_process (command : string) (p : process) (w : world) : world :=
  mkWorld (views w) (fs_after (p (fs w))) (trace w ++ [Spawn command]).

(** [subprocess.Popen(command, shell=True)], [wait] and [communicate]. *)
Definition popen (command : string) (p : process) : M (Z * string) :=
  fun w => Ok (returncode (p (fs w)), stderr (p (fs w)))
              (after_process command p w).

(** The world a computation ends in, returned or raised. *)
Definition final_world {A : Type} (r : result A) : world :=
  match r with Ok _ w => w | Raised _ w => w end.

(** What the editor asks of the plugin between the opening of a view
    and its closing: further open commands and save notifications. *)
Inductive request : Type :=
| OpenRequest (global_settings : dict) (project : option dict)
              (alias path : string) (cim : json) (tmp : string) (p : process)
| SaveRequest (i : nat) (p : process).

(** ** The plugin *)

(** The double quote character. *)
Definition dq : string := String (ascii_of_nat 34) EmptyString.

Section Plugin.

(** Python's [str()] on a value that is not a string, as the ['%s']
    formatting applies it. *)
Variable str_of : json -> string.

(** Python's [str.isdigit]: it holds of the non-empty strings whose
    characters are all digits, those of ASCII and those of the other
    scripts of Unicode (Arabic-Indic digits, superscripts, ...). *)
Variable py_isdigit : string -> bool.

(** Python's [int] on a string: the number read, [None] when the call
    ends in a [ValueError] (as it does for a superscript digit, which
    [isdigit] lets through). *)
Variable py_int : string -> option N.

Definition py_str (v : json) : string :=
  match v with JStr s => s | _ => str_of v end.

(** [p.find('@') == -1]; only a string has [find]. *)
Definition no_at (p : json) : M bool :=
  match p with
  | JStr s => ret (PyStr.lacks "@"%char s)
  | _ => raise AttributeError
  end.

(** [open(p, 'w').close()]. *)
Definition create_empty (p : json) : M unit :=
  match p with
  | JStr s => fs_op (fs_create s) (Create s)
  | _ => raise TypeError
  end.

(** The test of the first branch of [scp], lines 84 to 86; the operands
    of [or] are evaluated from the left until one is true. *)
Definition is_fatal (error_message : string) (from_path cim : json) : M bool :=
  if negb (PyStr.contains "no such file or directory" (PyStr.lower error_message))
  then ret true
  else if PyStr.contains "please try again" (PyStr.lower error_message)
  then ret true
  else
    remote_missing <- no_at from_path ;;
    if remote_missing then ret true else ret (negb (truthy cim)).

(** Line 62 of [scp]: the shell command. *)
Definition scp_command (from_path to_path : json) : string :=
  ("scp -o StrictHostKeychecking=no " ++ dq ++ py_str from_path ++ dq
     ++ " " ++ dq ++ py_str to_path ++ dq)%string.

(** [scp(from_path, to_path, create_if_missing)]; [p] is what the
    spawned executable does. *)
Definition scp (from_path to_path cim : json) (p : process) : M unit :=
  let command := scp_command from_path to_path in
  r <- popen command p ;;
  let '(return_code, error_message) := r in
  if (return_code =? 1)%Z then
    if PyStr.nonempty error_message then
      fatal <- is_fatal error_message from_path cim ;;
      if fatal then emit (ErrorMessage error_message)
      else
        to_local <- no_at to_path ;;
        if to_local && truthy cim then
          emit (StatusMessage "Could not get file, so creating it") ;;
          create_empty to_path
        else emit (StatusMessage "Could not get file, not creating it")
    else ret tt
  else ret tt.

(** Lines 157 to 159 of [run]: the path and the line number text. *)
Definition split_line (path : string) : string * string :=
  if PyStr.contains ":" path then
    match PyStr.split_first ":"%char path with
    | Some (p, l) => (p, l)
    | None => (path, "0")
    end
  else (path, "0").

(** Lines 161 to 163 of [run]: the location handed to [scp]. *)
Definition compose_scp_path (ssh_config : dict) (alias path : string) : string :=
  let scp_path :=
    (py_str (dict_get_default "address" (JStr alias) ssh_config)
       ++ ":" ++ path)%string in
  if dict_has "username" ssh_config
  then (py_str (dict_get "username" ssh_config) ++ "@" ++ scp_path)%string
  else scp_path.

(** [v == s] for a string [s]. *)
Definition eq_str (v : json) (s : string) : bool :=
  match v with JStr t => String.eqb t s | _ => false end.

(** The test of lines 169 to 171 on one view. *)
Definition is_session_of (scp_path : string) (v : view) : bool :=
  truthy (dict_get "is_remote_edit" (vsettings v)) &&
  eq_str (dict_get "scp_path" (vsettings v)) scp_path &&
  truthy (dict_get "temp_path" (vsettings v)).

(** The loop of lines 167 to 173: the position of the first view that
    passes the test, [None] when the loop runs to its [else]. *)
Fixpoint find_session (scp_path : string) (vs : list view) : option nat :=
  match vs with
  | [] => None
  | v :: r =>
      if is_session_of scp_path v then Some 0%nat
      else option_map S (find_session scp_path r)
  end.

(** [window.open_file(p)]: a new view at the end of the window's views.
    The file is in a directory that [mkdtemp] has just made, so no view
    shows it yet. *)
Definition open_file (p : string) : M nat :=
  fun w => Ok (length (views w))
              (mkWorld (views w ++ [mkView p []]) (fs w)
                       (trace w ++ [OpenFile p])).

Fixpoint update_nth {A : Type} (i : nat) (f : A -> A) (l : list A) : list A :=
  match l, i with
  | [], _ => []
  | x :: r, O => f x :: r
  | x :: r, S j => x :: update_nth j f r
  end.

(** [view.settings().set(k, v)] on the view at position [i]. *)
Definition settings_set (i : nat) (k : string) (v : json) : M unit :=
  fun w => Ok tt
    (mkWorld
       (update_nth i (fun x => mkView (file_name x) (dict_set k v (vsettings x)))
                   (views w))
       (fs w) (trace w)).

(** Lines 191 to 198 for the view at position [i]: the view is focused;
    when the line number text is not empty and [isdigit] holds of it, the
    selection is cleared and, once [int] has read the text, the cursor is
    put on that line and the line is shown. *)
Definition position (i : nat) (line_no : string) : M unit :=
  emit (FocusView i) ;;
  if PyStr.nonempty line_no && py_isdigit line_no then
    emit (ClearSelection i) ;;
    match py_int line_no with
    | Some row => emit (ShowLine i row)
    | None => raise ValueError
    end
  else ret tt.

(** [RemoteEditOpenRemoteFileCommand.run(alias, path, create_if_missing)].
    [global_settings] and [project] are the two settings layers, [tmp]
    is the directory name [mkdtemp] comes up with if it is called and
    [p] what the [scp] executable does if it is spawned. *)
Definition run (global_settings : dict) (project : option dict)
  (alias path : string) (cim : json) (tmp : string) (p : process) : M unit :=
  let settings := get_settings global_settings project cim in
  let cim := create_if_missing settings in
  match dict_get alias (ssh_configs settings) with
  | JNull =>
      emit (ErrorMessage
              ("Cound not find ssh config alias " ++ dq ++ alias ++ dq ++ ".")%string)
  | JDict ssh_config =>
      let '(path, line_no) := split_line path in
      let scp_path := compose_scp_path ssh_config alias path in
      vs <- get_views ;;
      found <-
        match find_session scp_path vs with
        | Some i => ret (Some i)
        | None =>
            d <- mkdtemp tmp ;;
            let temp_path := OsPath.join d (OsPath.basename path) in
            scp (JStr scp_path) (JStr temp_path) cim p ;;
            there <- exists_path temp_path ;;
            if negb there then ret None
            else
              i <- open_file temp_path ;;
              settings_set i "is_remote_edit" (JBool true) ;;
              settings_set i "scp_path" (JStr scp_path) ;;
              settings_set i "temp_path" (JStr temp_path) ;;
              settings_set i "create_if_missing" cim ;;
              ret (Some i)
        end ;;
      match found with
      | None => ret tt
      | Some i => position i line_no
      end
  | _ => raise AttributeError
  end.

(** [RemoteEditListener.on_post_save(view)]. *)
Definition on_post_save (v : view) (p : process) : M unit :=
  let settings := vsettings v in
  if truthy (dict_get "is_remote_edit" settings) &&
     dict_has "create_if_missing" settings &&
     dict_has "scp_path" settings &&
     dict_has "temp_path" settings
  then scp (dict_get "temp_path" settings)
           (dict_get "scp_path" settings)
           (dict_get "create_if_missing" settings) p
  else ret tt.

(** [os.unlink(p)]. *)
Definition unlink (p : json) : M unit :=
  match p with
  | JStr s => fs_op (fs_unlink s) (Unlink s)
  | _ => raise TypeError
  end.

(** [os.rmdir(os.path.dirname(p))]. *)
Definition rmdir_of (p : json) : M unit :=
  match p with
  | JStr s => fs_op (fs_rmdir (OsPath.dirname s)) (Rmdir (OsPath.dirname s))
  | _ => raise TypeError
  end.

(** [RemoteEditListener.on_close(view)]. *)
Definition on_close (v : view) : M unit :=
  let settings := vsettings v in
  if truthy (dict_get "is_remote_edit" settings) &&
     dict_has "scp_path" settings &&
     dict_has "temp_path" settings
  then
    unlink (dict_get "temp_path" settings) ;;
    rmdir_of (dict_get "temp_path" settings)
  else ret tt.

Fixpoint remove_nth {A : Type} (i : nat) (l : list A) : list A :=
  match l, i with
  | [], _ => []
  | _ :: r, O => r
  | x :: r, S j => x :: remove_nth j r
  end.

(** The editor closes the view at position [i]: the view leaves the
    window and the listener's [on_close] is called with it. *)
Definition close_view (i : nat) : M unit :=
  fun w => match nth_error (views w) i with
           | None => Ok tt w
           | Some v =>
               on_close v (mkWorld (remove_nth i (views w)) (fs w) (trace w))
           end.

(** The editor reports that the view at position [i] was saved. *)
Definition save_view (i : nat) (p : process) : M unit :=
  fun w => match nth_error (views w) i with
           | None => Ok tt w
           | Some v => on_post_save v p w
           end.

(** One request handled by the plugin. *)
Definition handle (r : request) : M unit :=
  match r with
  | OpenRequest g pr alias path cim tmp p => run g pr alias path cim tmp p
  | SaveRequest i p => save_view i p
  end.


(** The worlds the editor can be in: it starts without views, hands
    requests to the plugin and closes views. *)
Inductive reachable : world -> Prop :=
| reach_start (f : filesystem) (t : list event) : reachable (mkWorld [] f t)
| reach_handle (r : request) (w : world) :
    reachable w -> reachable (final_world (handle r w))
| reach_close (i : nat) (w : world) :
    reachable w -> reachable (final_world (close_view i w)).

End Plugin.

(** A [str()] for the values of the examples. *)
Definition str_scalar (v : json) : string :=
  match v with
  | JNull => "None"
  | JBool true => "True"
  | JBool false => "False"
  | JStr s => s
  | _ => EmptyString
  end.

Definition empty_fs : filesystem := mkFs ["/"; "/tmp"] [].
Definition empty_world : world := mkWorld [] empty_fs [].

(** ** Vocabulary of the statements *)

(** A value when it is a boolean, [False] otherwise (line 43). *)
Definition bool_or_false (v : json) : json :=
  if is_bool v then v else JBool false.

(** The alias table a layer holds: its [ssh_configs] when that is a
    dict, the empty table otherwise (lines 46 and 47). *)
Definition table_of (d : dict) : dict :=
  match dict_get "ssh_configs" d with JDict t => t | _ => [] end.

(** The last layer of a sequence that is not [None]. *)
Definition last_present (layers : list (option dict)) : option dict :=
  fold_left (fun acc l => match l with Some d => Some d | None => acc end)
            layers None.

(** The test of lines 84 to 86 when [from_path] is a string. *)
Definition fatal_test (error_message from_path : string) (cim : json) : bool :=
  negb (PyStr.contains "no such file or directory" (PyStr.lower error_message))
  || PyStr.contains "please try again" (PyStr.lower error_message)
  || PyStr.lacks "@"%char from_path
  || negb (truthy cim).

(** How many processes a trace has spawned. *)
Fixpoint count_spawns (t : list event) : nat :=
  match t with
  | [] => 0
  | Spawn _ :: r => S (count_spawns r)
  | _ :: r => count_spawns r
  end.

(** A computation that leaves the views alone and spawns [n] processes. *)
Definition frames {A : Type} (n : nat) (m : M A) : Prop :=
  forall w : world,
    views (final_world (m w)) = views w /\
    count_spawns (trace (final_world (m w))) = (n + count_spawns (trace w))%nat.

(** A computation that leaves the set of directories alone. *)
Definition keeps_dirs {A : Type} (m : M A) : Prop :=
  forall w : world, dirs (fs (final_world (m w))) = dirs (fs w).


(** No two views of the window are sessions of the same remote file. *)
Definition at_most_one_session (vs : list view) : Prop :=
  forall scp_path : string,
    (length (filter (is_session_of scp_path) vs) <= 1)%nat.

(** The settings of a view after lines 184 to 187. *)
Definition session_settings (scp_path temp_path : string) (cim : json) : dict :=
  dict_set "create_if_missing" cim
    (dict_set "temp_path" (JStr temp_path)
       (dict_set "scp_path" (JStr scp_path)
          (dict_set "is_remote_edit" (JBool true) []))).

(** The world after lines 182 to 187: the file is open in a new view
    that carries the session settings. *)
Definition with_session (scp_path temp_path : string) (cim : json) (w : world)
  : world :=
  mkWorld (views w ++ [mkView temp_path (session_settings scp_path temp_path cim)])
          (fs w) (trace w ++ [OpenFile temp_path]).

(** The world after lines 191 to 198 for the view at position [i],
    however they end. *)
Definition positioned (py_isdigit : string -> bool) (py_int : string -> option N)
  (i : nat) (line_no : string) (w : world) : world :=
  final_world (position py_isdigit py_int i line_no w).

(** Lines 148 to 150 of [run]: what the alias stands for. *)
Definition resolved_config (global_settings : dict) (project : option dict)
  (cim : json) (alias : string) : json :=
  dict_get alias (ssh_configs (get_settings global_settings project cim)).

(** Line 149 of [run]: the policy the open flow goes on with. *)
Definition resolved_policy (global_settings : dict) (project : option dict)
  (cim : json) : json :=
  create_if_missing (get_settings global_settings project cim).

Definition creating_status : event :=
  StatusMessage "Could not get file, so creating it".

Definition skipping_status : event :=
  StatusMessage "Could not get file, not creating it".

(** ** Example data *)

Definition remote_conf : string := "dev@10.0.0.5:/etc/app.conf".
Definition local_conf : string := "/tmp/tmpk3/app.conf".

(** An [scp] that exits with status 2 after a complaint. *)
Definition exits_two : process :=
  fun f => mkCompleted 2 "Permission denied" f.

(** An [scp] that succeeds without touching the local files. *)
Definition exits_zero : process := fun f => mkCompleted 0 EmptyString f.

(** An [scp] that finds no remote file. *)
Definition no_such_file : process :=
  fun f => mkCompleted 1 "scp: /etc/app.conf: No such file or directory" f.

(** An [scp] that is refused the remote file. *)
Definition permission_denied : process :=
  fun f => mkCompleted 1 "scp: /etc/app.conf: Permission denied" f.

(** An [scp] that copies the remote file to [local_conf]. *)
Definition copies_conf : process :=
  fun f => mkCompleted 0 EmptyString
             (mkFs (dirs f) ((local_conf, "port = 8080") :: files f)).

(** An [scp] that fails with status 1 and says nothing. *)
Definition silent_failure : process := fun f => mkCompleted 1 EmptyString f.

Definition prod_descriptor : json :=
  JDict [("address", JStr "10.0.0.5"); ("username", JStr "dev")].

Definition global_with_aliases : dict :=
  [("create_if_missing", JBool true);
   ("ssh_configs", JDict [("prod", prod_descriptor); ("live", prod_descriptor)])].

Definition project_without_aliases : dict :=
  [("debug", JBool true)].

(** The window after "/etc/app.conf" of the alias [prod] was opened. *)
Definition opened_world : world :=
  final_world
    (run str_scalar PyStr.ascii_isdigit PyStr.ascii_int global_with_aliases None "prod" "/etc/app.conf" (JBool true)
         "/tmp/tmpk3" copies_conf empty_world).


(** ** The prompt command *)

Section Prompt.

Variable str_of : json -> string.
Variable py_isdigit : string -> bool.
Variable py_int : string -> option N.

(** Line 105: the quick panel entry of one alias.  Only a dict has
    [get]. *)
Definition alias_entry (alias : string) (ssh_config : json)
  : exn + (string * string) :=
  match ssh_config with
  | JDict d =>
      inr (alias,
           ("Address: "
              ++ py_str str_of (dict_get_default "address" (JStr alias) d))%string)
  | _ => inl AttributeError
  end.

(** The loop of lines 104 to 106 over the items of the alias table. *)
Fixpoint collect_aliases (items : dict) : exn + list (string * string) :=
  match items with
  | [] => inr []
  | (alias, ssh_config) :: rest =>
      match alias_entry alias ssh_config with
      | inl e => inl e
      | inr entry =>
          match collect_aliases rest with
          | inl e => inl e
          | inr entries => inr (entry :: entries)
          end
      end
  end.

(** [list.sort(key=lambda x: x[0])] is stable: an entry goes before the
    first entry whose alias is not smaller than its own. *)
Fixpoint insert_by_alias (x : string * string) (l : list (string * string))
  : list (string * string) :=
  match l with
  | [] => [x]
  | y :: r =>
      if String.leb (fst x) (fst y) then x :: y :: r
      else y :: insert_by_alias x r
  end.

Fixpoint sort_by_alias (l : list (string * string)) : list (string * string) :=
  match l with
  | [] => []
  | x :: r => insert_by_alias x (sort_by_alias r)
  end.

(** [RemoteEditOpenRemoteFilePromptCommand.run]: the entries handed to
    the quick panel, [self.all_aliases]. *)
Definition all_aliases (global_settings : dict) (project : option dict)
  : exn + list (string * string) :=
  match collect_aliases (ssh_configs (get_settings global_settings project JNull)) with
  | inl e => inl e
  | inr entries => inr (sort_by_alias entries)
  end.

(** [on_alias_done(selection)]: the alias kept in [self.alias], [None]
    when the method returns at line 113. *)
Definition on_alias_done (entries : list (string * string)) (selection : Z)
  : option string :=
  if (selection <? 0)%Z || (Z.of_nat (length entries) <=? selection)%Z then None
  else option_map fst (nth_error entries (Z.to_nat selection)).

(** [on_path_done(path)]: the open command is run with the alias and the
    path, and without [create_if_missing]. *)
Definition on_path_done (global_settings : dict) (project : option dict)
  (alias path : string) (tmp : string) (p : process) : M unit :=
  run str_of py_isdigit py_int global_settings project alias path JNull tmp p.

End Prompt.





Section Editor.

Variable str_of : json -> string.
Variable py_isdigit : string -> bool.
Variable py_int : string -> option N.

(** The worlds the editor can get to from the world [w0] by handing
    requests to the plugin and closing views. *)
Inductive reachable_from (w0 : world) : world -> Prop :=
| from_start : reachable_from w0 w0
| from_handle (r : request) (w : world) :
    reachable_from w0 w -> reachable_from w0 (final_world (handle str_of py_isdigit py_int r w))
| from_close (i : nat) (w : world) :
    reachable_from w0 w -> reachable_from w0 (final_world (close_view i w)).

End Editor.

(** A view that is marked [is_remote_edit] only if the open flow made
    it. *)
Definition plugin_made (v : view) : Prop :=
  truthy (dict_get "is_remote_edit" (vsettings v)) = true ->
  exists (scp_path : string) (cim : json),
    v = mkView (file_name v) (session_settings scp_path (file_name v) cim).

(** A window with one ordinary view. *)
Definition plain_world : world :=
  mkWorld [mkView "/home/dev/notes.txt" [("tab_size", JNum 4)]] empty_fs [].

(** The entries of a quick panel are in the order of their aliases. *)
Definition alias_le (x y : string * string) : Prop :=
  String.leb (fst x) (fst y) = true.

(** The events that delete something. *)
Definition is_removal (e : event) : bool :=
  match e with
  | Unlink _ | Rmdir _ => true
  | _ => false
  end.

(** A computation that deletes nothing. *)
Definition deletes_nothing {A : Type} (m : M A) : Prop :=
  forall w : world,
    filter is_removal (trace (final_world (m w))) = filter is_removal (trace w).

(** Settings whose only alias has no user name. *)
Definition without_username : dict :=
  [("create_if_missing", JBool true);
   ("ssh_configs", JDict [("box", JDict [("address", JStr "10.0.0.9")])])].

(** ** [get_settings] *)

Lemma layer_step_ssh_configs (c : json) (s : settings) (d : dict) :
  ssh_configs (snd (layer_step (c, s) (Some d))) = table_of d.
Proof.
  unfold layer_step, table_of.
  destruct d as [|kv d]; simpl.
  - destruct (negb (is_none c)); reflexivity.
  - destruct (negb (is_none c)); reflexivity.
Qed.

Lemma fold_layers_ssh_configs (layers : list (option dict)) :
  forall (acc : json * settings) (o : option dict),
    ssh_configs (snd acc) = match o with Some d => table_of d | None => [] end ->
    ssh_configs (snd (fold_left layer_step layers acc)) =
    match fold_left (fun a l => match l with Some d => Some d | None => a end)
                    layers o with
    | Some d => table_of d
    | None => []
    end.
Proof.
  induction layers as [|l layers IH]; intros acc o Hacc; simpl.
  - exact Hacc.
  - destruct l as [d|].
    + apply IH. destruct acc as [c s]. apply layer_step_ssh_configs.
    + apply IH. exact Hacc.
Qed.

(** C4, as the code has it: the merged alias table is the [ssh_configs]
    dict of the last layer that is present (not [None]), and it is empty
    when that layer holds no dict under [ssh_configs] or when no layer is
    present.  Only a layer that is [None] leaves the table as it was. *)
Theorem get_settings_ssh_configs_last_present
  (layers : list (option dict)) (cim : json) :
  ssh_configs (get_settings_from layers cim) =
  match last_present layers with
  | Some d => table_of d
  | None => []
  end.
Proof.
  unfold get_settings_from, last_present.
  apply fold_layers_ssh_configs. reflexivity.
Qed.

(** C4 fails as stated: the global layer defines the alias [prod], the
    project layer is present and defines no alias table, and the merged
    table is empty rather than the global one. *)
Lemma get_settings_ssh_configs_reset :
  table_of global_with_aliases =
    [("prod", prod_descriptor); ("live", prod_descriptor)] /\
  dict_has "ssh_configs" project_without_aliases = false /\
  forall cim,
    ssh_configs (get_settings_from
                   [Some global_with_aliases; Some project_without_aliases] cim)
    = [].
Proof.
  split; [reflexivity|]. split; [reflexivity|].
  intros cim. unfold get_settings_from.
  rewrite (fold_layers_ssh_configs _ _ None) by reflexivity. reflexivity.
Qed.

Lemma layer_step_consulted (c : json) (s : settings) (d : dict) :
  c <> JNull ->
  fst (layer_step (c, s) (Some d)) = bool_or_false (dict_get "create_if_missing" d) /\
  create_if_missing (snd (layer_step (c, s) (Some d))) =
    bool_or_false (dict_get "create_if_missing" d).
Proof.
  intros Hc. unfold layer_step, bool_or_false.
  assert (Hn : negb (is_none c) = true) by (destruct c; try reflexivity; congruence).
  destruct d as [|kv d]; simpl; rewrite Hn.
  - split; reflexivity.
  - destruct (is_bool (dict_get "create_if_missing" (kv :: d))); split; reflexivity.
Qed.

Lemma bool_or_false_not_none (v : json) : bool_or_false v <> JNull.
Proof. unfold bool_or_false. destruct v; simpl; discriminate. Qed.




(** ** [scp] *)

Lemma trace_longer (l : list event) (e : event) (m : list event) :
  l ++ e :: m <> l.
Proof.
  intros H. apply (f_equal (@length event)) in H.
  rewrite length_app in H. simpl in H. lia.
Qed.

Lemma fs_op_neq (op : filesystem -> exn + filesystem) (e : event)
  (w w0 : world) :
  (length (trace w0) <= length (trace w))%nat ->
  fs_op op e w <> Ok tt w0.
Proof.
  intros Ht H. unfold fs_op in H.
  destruct (op (fs w)); [discriminate|].
  inversion H as [Hw]. rewrite <- Hw in Ht. simpl in Ht.
  rewrite length_app in Ht. simpl in Ht. lia.
Qed.

Lemma fs_create_empty_file (p : string) (f f' : filesystem) :
  fs_create p f = inr f' -> In (p, EmptyString) (files f') /\ dirs f' = dirs f.
Proof.
  unfold fs_create. intros H.
  destruct (is_dir (strip_slashes p) f); [discriminate|].
  destruct (negb (PyStr.nonempty (OsPath.dirname p)) || is_dir (OsPath.dirname p) f);
    [|discriminate].
  inversion H. simpl. auto.
Qed.

(** Closes a goal [Ok tt (record e w) = Ok tt w -> False]. *)
Ltac trace_clash :=
  let H := fresh "H" in
  let Hw := fresh "Hw" in
  intros H; inversion H as [Hw]; exact (trace_longer _ _ _ Hw).

Section ScpFacts.

Variable str_of : json -> string.

Lemma scp_not_classified (from_path to_path cim : json) (p : process) (w : world) :
  returncode (p (fs w)) <> 1%Z \/ stderr (p (fs w)) = EmptyString ->
  scp str_of from_path to_path cim p w =
  Ok tt (after_process (scp_command str_of from_path to_path) p w).
Proof.
  intros H. unfold scp, bind, popen.
  destruct (Z.eqb_spec (returncode (p (fs w))) 1) as [E|E].
  - destruct H as [H|H]; [contradiction|]. rewrite H. reflexivity.
  - reflexivity.
Qed.

Lemma scp_classified (from_path to_path : string) (cim : json) (p : process)
  (w : world) :
  returncode (p (fs w)) = 1%Z ->
  stderr (p (fs w)) <> EmptyString ->
  scp str_of (JStr from_path) (JStr to_path) cim p w =
  let w1 := after_process (scp_command str_of (JStr from_path) (JStr to_path)) p w in
  if fatal_test (stderr (p (fs w))) from_path cim
  then Ok tt (record (ErrorMessage (stderr (p (fs w)))) w1)
  else if PyStr.lacks "@"%char to_path
       then fs_op (fs_create to_path) (Create to_path) (record creating_status w1)
       else Ok tt (record skipping_status w1).
Proof.
  intros Hrc Herr. unfold scp, bind, popen. rewrite Hrc. simpl.
  destruct (stderr (p (fs w))) as [|c0 text] eqn:Etext; [congruence|].
  cbn [PyStr.nonempty]. unfold is_fatal, fatal_test, bind, no_at, ret.
  destruct (negb (PyStr.contains "no such file or directory"
                                 (PyStr.lower (String c0 text)))); [reflexivity|].
  destruct (PyStr.contains "please try again" (PyStr.lower (String c0 text)));
    [reflexivity|].
  destruct (PyStr.lacks "@"%char from_path); [reflexivity|].
  cbn [orb].
  destruct (truthy cim); cbn [negb]; [|reflexivity].
  unfold emit. rewrite Bool.andb_true_r.
  destruct (PyStr.lacks "@"%char to_path); reflexivity.
Qed.

(** C1, for exit status 1 (the only status the code classifies): with a
    non-empty error text the error text is shown to the user exactly when
    it lacks "no such file or directory", or holds "please try again",
    or the source has no [@], or [create_if_missing] is false.
    Otherwise, when the destination has no [@] ([create_if_missing] is
    then true), the status line announces the creation and an empty file
    is created at the destination; otherwise only the status line is
    shown and nothing is created. *)
Theorem scp_decision_table (from_path to_path : string) (cim : json)
  (p : process) (w : world) :
  returncode (p (fs w)) = 1%Z ->
  stderr (p (fs w)) <> EmptyString ->
  let text := stderr (p (fs w)) in
  let w1 := after_process (scp_command str_of (JStr from_path) (JStr to_path)) p w in
  let r := scp str_of (JStr from_path) (JStr to_path) cim p w in
  (r = Ok tt (record (ErrorMessage text) w1) <->
   fatal_test text from_path cim = true) /\
  (fatal_test text from_path cim = false ->
   PyStr.lacks "@"%char to_path = true ->
   truthy cim = true /\
   r = fs_op (fs_create to_path) (Create to_path) (record creating_status w1) /\
   forall f', fs_create to_path (fs w1) = inr f' ->
     r = Ok tt (mkWorld (views w) f'
                        (trace w1 ++ [creating_status; Create to_path])) /\
     In (to_path, EmptyString) (files f')) /\
  (fatal_test text from_path cim = false ->
   PyStr.lacks "@"%char to_path = false ->
   r = Ok tt (record skipping_status w1)).
Proof.
  intros Hrc Herr text w1 r.
  assert (Hr := scp_classified from_path to_path cim p w Hrc Herr).
  fold text w1 r in Hr. cbv zeta in Hr.
  fold w1 in Hr.
  split; [|split].
  - split.
    + intros H. destruct (fatal_test text from_path cim); [reflexivity|].
      exfalso. rewrite Hr in H.
      destruct (PyStr.lacks "@"%char to_path).
      * revert H. apply fs_op_neq. simpl. rewrite !length_app. simpl. lia.
      * inversion H as [Hw]. apply app_inv_head in Hw. discriminate.
    + intros H. rewrite Hr, H. reflexivity.
  - intros Hf Hl. rewrite Hf, Hl in Hr.
    split.
    + unfold fatal_test in Hf. destruct (truthy cim); [reflexivity|].
      rewrite Bool.orb_true_r in Hf. discriminate.
    + split; [exact Hr|].
      intros f' Hc. split.
      * rewrite Hr. unfold fs_op. cbn [fs record]. rewrite Hc.
        cbn [views record trace]. rewrite <- app_assoc. reflexivity.
      * apply (fs_create_empty_file _ _ _ Hc).
  - intros Hf Hl. rewrite Hf, Hl in Hr. exact Hr.
Qed.

(** C2, as the code has it: the outcome of [scp] depends on the spawned
    process only through what it did, and [scp] does nothing beyond
    spawning it (the outcome of a success) exactly when the exit status
    is not 1 or the error text is empty. *)
Theorem scp_success_iff_not_classified (from_path to_path cim : json)
  (p : process) (w : world) :
  (forall p' : process,
      p' (fs w) = p (fs w) ->
      scp str_of from_path to_path cim p' w = scp str_of from_path to_path cim p w) /\
  (scp str_of from_path to_path cim p w =
   Ok tt (after_process (scp_command str_of from_path to_path) p w) <->
   (returncode (p (fs w)) <> 1%Z \/ stderr (p (fs w)) = EmptyString)).
Proof.
  split.
  - intros p' Hp. unfold scp, bind, popen, after_process. rewrite Hp. reflexivity.
  - split; [|apply scp_not_classified].
    intros H.
    destruct (Z.eq_dec (returncode (p (fs w))) 1) as [Hrc|Hrc]; [|left; exact Hrc].
    right. destruct (stderr (p (fs w))) as [|c0 text] eqn:Etext; [reflexivity|].
    exfalso. revert H. unfold scp, bind, popen. rewrite Hrc, Etext.
    cbn [Z.eqb Pos.eqb PyStr.nonempty].
    unfold is_fatal, bind, ret, emit.
    destruct (negb (PyStr.contains "no such file or directory"
                                   (PyStr.lower (String c0 text))));
      [trace_clash|].
    destruct (PyStr.contains "please try again" (PyStr.lower (String c0 text)));
      [trace_clash|].
    destruct from_path; cbn [no_at]; unfold raise, ret; try discriminate.
    destruct (PyStr.lacks "@"%char s);
      [trace_clash|].
    destruct (negb (truthy cim));
      [trace_clash|].
    destruct to_path; cbn [no_at]; unfold raise, ret; try discriminate.
    destruct (PyStr.lacks "@"%char s0 && truthy cim).
    + unfold create_empty. apply fs_op_neq. simpl. rewrite !length_app. simpl. lia.
    + trace_clash.
Qed.

End ScpFacts.

Lemma scp_decision_table_witness :
  let w := after_mkdtemp "/tmp/tmpk3" empty_world in
  returncode (no_such_file (fs w)) = 1%Z /\
  stderr (no_such_file (fs w)) <> EmptyString /\
  scp str_scalar (JStr remote_conf) (JStr local_conf) (JBool true) no_such_file w =
  Ok tt (mkWorld []
           (mkFs ["/"; "/tmp"; "/tmp/tmpk3"] [(local_conf, EmptyString)])
           [Mkdtemp "/tmp/tmpk3";
            Spawn (scp_command str_scalar (JStr remote_conf) (JStr local_conf));
            creating_status; Create local_conf]).
Proof.
  intros w.
  assert (Hrc : returncode (no_such_file (fs w)) = 1%Z) by reflexivity.
  assert (Herr : stderr (no_such_file (fs w)) <> EmptyString) by discriminate.
  split; [exact Hrc|]. split; [exact Herr|].
  destruct (scp_decision_table str_scalar remote_conf local_conf (JBool true)
              no_such_file w Hrc Herr) as (_ & Hcreate & _).
  destruct (Hcreate eq_refl eq_refl) as (_ & _ & Hfile).
  exact (proj1 (Hfile (mkFs ["/"; "/tmp"; "/tmp/tmpk3"] [(local_conf, EmptyString)])
                      eq_refl)).
Defined.

(** C1 fails as stated for a non-zero exit status other than 1: the
    process exits with status 2 and the error text "Permission denied",
    which lacks "no such file or directory", and no error is shown. *)
Lemma scp_exit_status_two_not_fatal :
  returncode (exits_two (fs empty_world)) <> 0%Z /\
  stderr (exits_two (fs empty_world)) <> EmptyString /\
  fatal_test (stderr (exits_two (fs empty_world))) remote_conf (JBool true) = true /\
  scp str_scalar (JStr remote_conf) (JStr local_conf) (JBool true) exits_two
      empty_world
  <> Ok tt (record (ErrorMessage (stderr (exits_two (fs empty_world))))
                   (after_process
                      (scp_command str_scalar (JStr remote_conf) (JStr local_conf))
                      exits_two empty_world)).
Proof.
  split; [discriminate|]. split; [discriminate|]. split; [reflexivity|].
  vm_compute. discriminate.
Qed.

(** C2 fails as stated: with exit status 2 the outcome is the one of a
    successful transfer, nothing is shown and nothing is classified. *)
Lemma scp_exit_status_two_as_success :
  returncode (exits_two (fs empty_world)) <> 0%Z /\
  scp str_scalar (JStr remote_conf) (JStr local_conf) (JBool true) exits_two
      empty_world
  = scp str_scalar (JStr remote_conf) (JStr local_conf) (JBool true) exits_zero
        empty_world.
Proof. split; [discriminate|reflexivity]. Qed.

(** ** Frame properties *)

Lemma count_spawns_app (t u : list event) :
  count_spawns (t ++ u) = (count_spawns t + count_spawns u)%nat.
Proof.
  induction t as [|e t IH]; simpl; [reflexivity|].
  destruct e; simpl; rewrite IH; reflexivity.
Qed.

Lemma update_nth_last {A : Type} (f : A -> A) (l : list A) (x : A) :
  update_nth (length l) f (l ++ [x]) = l ++ [f x].
Proof. induction l as [|a l IH]; simpl; congruence. Qed.

Section Positioning.

Variable py_isdigit : string -> bool.
Variable py_int : string -> option N.

(** Lines 191 to 198, case by case. *)
Lemma position_cases (i : nat) (line_no : string) (w : world) :
  position py_isdigit py_int i line_no w =
  if PyStr.nonempty line_no && py_isdigit line_no then
    match py_int line_no with
    | Some row =>
        Ok tt (mkWorld (views w) (fs w)
                       (trace w ++ [FocusView i; ClearSelection i; ShowLine i row]))
    | None =>
        Raised ValueError
               (mkWorld (views w) (fs w) (trace w ++ [FocusView i; ClearSelection i]))
    end
  else Ok tt (mkWorld (views w) (fs w) (trace w ++ [FocusView i])).
Proof.
  unfold position, bind, emit, ret, raise, record.
  destruct (PyStr.nonempty line_no && py_isdigit line_no); [|reflexivity].
  destruct (py_int line_no); cbn [views fs trace];
    rewrite <- ?app_assoc; reflexivity.
Qed.

Lemma position_final (i : nat) (line_no : string) (w w1 : world) :
  position py_isdigit py_int i line_no w = Ok tt w1 ->
  positioned py_isdigit py_int i line_no w = w1.
Proof. unfold positioned. intros ->. reflexivity. Qed.

Lemma positioned_views (i : nat) (line_no : string) (w : world) :
  views (positioned py_isdigit py_int i line_no w) = views w.
Proof.
  unfold positioned. rewrite position_cases.
  destruct (_ && _); [destruct (py_int line_no)|]; reflexivity.
Qed.

Lemma positioned_fs (i : nat) (line_no : string) (w : world) :
  fs (positioned py_isdigit py_int i line_no w) = fs w.
Proof.
  unfold positioned. rewrite position_cases.
  destruct (_ && _); [destruct (py_int line_no)|]; reflexivity.
Qed.


Lemma position_views (i : nat) (line_no : string) (w : world) :
  views (final_world (position py_isdigit py_int i line_no w)) = views w.
Proof. apply positioned_views. Qed.



End Positioning.

Lemma frames_ret {A : Type} (a : A) : frames 0 (ret a).
Proof. intros w. split; reflexivity. Qed.

Lemma frames_raise {A : Type} (e : exn) : frames 0 (@raise A e).
Proof. intros w. split; reflexivity. Qed.

Lemma frames_emit (e : event) : count_spawns [e] = 0%nat -> frames 0 (emit e).
Proof.
  intros He w. split; [reflexivity|].
  simpl. rewrite count_spawns_app, He. lia.
Qed.

Lemma frames_fs_op (op : filesystem -> exn + filesystem) (e : event) :
  count_spawns [e] = 0%nat -> frames 0 (fs_op op e).
Proof.
  intros He w. unfold fs_op. destruct (op (fs w)); simpl.
  - split; reflexivity.
  - rewrite count_spawns_app, He. split; [reflexivity|lia].
Qed.

Lemma frames_popen (command : string) (p : process) : frames 1 (popen command p).
Proof.
  intros w. split; [reflexivity|].
  simpl. rewrite count_spawns_app. simpl. lia.
Qed.

(** Sequencing with a continuation that spawns nothing. *)
Lemma frames_bind {A B : Type} (n : nat) (m : M A) (f : A -> M B) :
  frames n m -> (forall a, frames 0 (f a)) -> frames n (bind m f).
Proof.
  intros Hm Hf w. unfold bind. destruct (Hm w) as [Hv Hc].
  destruct (m w) as [a w'|e w']; simpl in *.
  - destruct (Hf a w') as [Hv' Hc']. split; [congruence|lia].
  - split; assumption.
Qed.

Create HintDb frames.
#[local] Hint Resolve frames_ret frames_raise frames_emit frames_fs_op
  frames_popen : frames.

Section Frames.

Variable str_of : json -> string.

Lemma frames_no_at (p : json) : frames 0 (no_at p).
Proof. destruct p; simpl; auto with frames. Qed.

Lemma frames_create_empty (p : json) : frames 0 (create_empty p).
Proof. destruct p; simpl; auto with frames. Qed.

Lemma frames_is_fatal (e : string) (from_path cim : json) :
  frames 0 (is_fatal e from_path cim).
Proof.
  unfold is_fatal.
  destruct (negb _); [auto with frames|].
  destruct (PyStr.contains _ _); [auto with frames|].
  apply frames_bind; [apply frames_no_at|].
  intros [|]; auto with frames.
Qed.

(** [scp] leaves the views alone and spawns exactly one process. *)
Lemma frames_scp (from_path to_path cim : json) (p : process) :
  frames 1 (scp str_of from_path to_path cim p).
Proof.
  unfold scp. apply frames_bind; [apply frames_popen|].
  intros [rc err].
  destruct (rc =? 1)%Z; [|auto with frames].
  destruct (PyStr.nonempty err); [|auto with frames].
  apply frames_bind; [apply frames_is_fatal|].
  intros [|]; [auto with frames|].
  apply frames_bind; [apply frames_no_at|].
  intros a. destruct (a && truthy cim).
  - apply frames_bind; [auto with frames|].
    intros _. apply frames_create_empty.
  - auto with frames.
Qed.

Lemma keeps_dirs_ret {A : Type} (a : A) : keeps_dirs (ret a).
Proof. intros w. reflexivity. Qed.

Lemma keeps_dirs_raise {A : Type} (e : exn) : keeps_dirs (@raise A e).
Proof. intros w. reflexivity. Qed.

Lemma keeps_dirs_emit (e : event) : keeps_dirs (emit e).
Proof. intros w. reflexivity. Qed.

Lemma keeps_dirs_bind {A B : Type} (m : M A) (f : A -> M B) :
  keeps_dirs m -> (forall a, keeps_dirs (f a)) -> keeps_dirs (bind m f).
Proof.
  intros Hm Hf w. unfold bind. specialize (Hm w).
  destruct (m w) as [a w'|e w']; simpl in *; [|exact Hm].
  rewrite (Hf a w'). exact Hm.
Qed.

Lemma keeps_dirs_create_empty (p : json) : keeps_dirs (create_empty p).
Proof.
  intros w. destruct p; try reflexivity.
  unfold create_empty, fs_op.
  destruct (fs_create s (fs w)) as [x|f] eqn:E; [reflexivity|].
  apply (fs_create_empty_file _ _ _ E).
Qed.

#[local] Hint Resolve keeps_dirs_ret keeps_dirs_raise keeps_dirs_emit
  keeps_dirs_create_empty : frames.

Lemma keeps_dirs_no_at (p : json) : keeps_dirs (no_at p).
Proof. destruct p; simpl; auto with frames. Qed.

Lemma keeps_dirs_is_fatal (e : string) (from_path cim : json) :
  keeps_dirs (is_fatal e from_path cim).
Proof.
  unfold is_fatal.
  destruct (negb _); [auto with frames|].
  destruct (PyStr.contains _ _); [auto with frames|].
  apply keeps_dirs_bind; [apply keeps_dirs_no_at|].
  intros [|]; auto with frames.
Qed.

(** After [scp] the directories are those the process left. *)
Lemma scp_dirs (from_path to_path cim : json) (p : process) (w : world) :
  dirs (fs (final_world (scp str_of from_path to_path cim p w))) =
  dirs (fs_after (p (fs w))).
Proof.
  unfold scp. unfold bind at 1. unfold popen.
  match goal with
  | |- dirs (fs (final_world (?k ?w1))) = _ =>
      change (dirs (fs_after (p (fs w)))) with (dirs (fs w1));
      generalize w1; change (keeps_dirs k)
  end.
  destruct (returncode (p (fs w)) =? 1)%Z; [|auto with frames].
  destruct (PyStr.nonempty (stderr (p (fs w)))); [|auto with frames].
  apply keeps_dirs_bind; [apply keeps_dirs_is_fatal|].
  intros [|]; [auto with frames|].
  apply keeps_dirs_bind; [apply keeps_dirs_no_at|].
  intros a. destruct (a && truthy cim); [|auto with frames].
  apply keeps_dirs_bind; auto with frames.
Qed.

End Frames.

(** ** The session registry *)


Lemma session_settings_session (s s' t : string) (c : json) :
  is_session_of s' (mkView t (session_settings s t c)) =
  String.eqb s s' && PyStr.nonempty t.
Proof. reflexivity. Qed.

Lemma find_session_none (s : string) (vs : list view) :
  find_session s vs = None <-> filter (is_session_of s) vs = [].
Proof.
  induction vs as [|v vs IH]; simpl; [tauto|].
  destruct (is_session_of s v).
  - split; discriminate.
  - destruct (find_session s vs); simpl.
    + split; [discriminate|]. intros H. apply IH in H. discriminate.
    + tauto.
Qed.

Lemma find_session_app (s : string) (vs : list view) (v : view) :
  find_session s vs = None ->
  find_session s (vs ++ [v]) =
  if is_session_of s v then Some (length vs) else None.
Proof.
  induction vs as [|a vs IH]; simpl; intros H.
  - destruct (is_session_of s v); reflexivity.
  - destruct (is_session_of s a); [discriminate|].
    destruct (find_session s vs); [discriminate|].
    rewrite IH by reflexivity. destruct (is_session_of s v); reflexivity.
Qed.




(** Registering a session for a remote file that has none keeps the
    sessions apart. *)
Lemma at_most_one_session_app (vs : list view) (s t : string) (c : json) :
  find_session s vs = None ->
  at_most_one_session vs ->
  at_most_one_session (vs ++ [mkView t (session_settings s t c)]).
Proof.
  intros Hnone Hone s'. rewrite filter_app, length_app.
  cbn [filter]. rewrite session_settings_session.
  destruct (String.eqb_spec s s') as [<-|Hne]; cbn [andb].
  - apply find_session_none in Hnone. rewrite Hnone.
    destruct (PyStr.nonempty t); simpl; lia.
  - specialize (Hone s'). simpl. lia.
Qed.

(** ** The open flow, case by case *)

Section RunFacts.

Variable str_of : json -> string.
Variable py_isdigit : string -> bool.
Variable py_int : string -> option N.

(** The remote file is already open: its view is focused. *)
Lemma run_reuse (g : dict) (pr : option dict) (alias path : string) (c : json)
  (tmp : string) (p : process) (w : world) (sc : dict) (i : nat) :
  resolved_config g pr c alias = JDict sc ->
  find_session (compose_scp_path str_of sc alias (fst (split_line path)))
               (views w) = Some i ->
  run str_of py_isdigit py_int g pr alias path c tmp p w =
  position py_isdigit py_int i (snd (split_line path)) w.
Proof.
  unfold resolved_config. intros Hres Hfind.
  unfold run. rewrite Hres.
  destruct (split_line path) as [a l]. cbn [fst snd] in *.
  unfold bind at 1. unfold get_views.
  unfold bind at 1. rewrite Hfind. reflexivity.
Qed.

(** The remote file is not open yet: it is fetched into a new temporary
    directory and opened when the local copy is there afterwards. *)
Lemma run_new (g : dict) (pr : option dict) (alias path : string) (c : json)
  (tmp : string) (p : process) (w : world) (sc : dict) :
  resolved_config g pr c alias = JDict sc ->
  let scp_path := compose_scp_path str_of sc alias (fst (split_line path)) in
  let temp_path := OsPath.join tmp (OsPath.basename (fst (split_line path))) in
  find_session scp_path (views w) = None ->
  run str_of py_isdigit py_int g pr alias path c tmp p w =
  match scp str_of (JStr scp_path) (JStr temp_path) (resolved_policy g pr c) p
            (after_mkdtemp tmp w) with
  | Ok _ w2 =>
      if path_exists temp_path (fs w2)
      then position py_isdigit py_int (length (views w2)) (snd (split_line path))
                    (with_session scp_path temp_path (resolved_policy g pr c) w2)
      else Ok tt w2
  | Raised e w2 => Raised e w2
  end.
Proof.
  intros Hres scp_path temp_path Hfind. subst scp_path temp_path.
  unfold resolved_config, resolved_policy in *.
  unfold run. rewrite Hres.
  destruct (split_line path) as [a l]. cbn [fst snd] in *.
  unfold bind at 1. unfold get_views.
  unfold bind at 1. rewrite Hfind.
  unfold bind at 1. unfold mkdtemp.
  unfold bind at 1.
  destruct (scp str_of _ _ _ p (after_mkdtemp tmp w)) as [[] w2|e w2];
    [|reflexivity].
  unfold bind at 1. unfold exists_path.
  destruct (path_exists _ (fs w2)); cbn [negb]; [|reflexivity].
  unfold open_file, settings_set, bind, ret, with_session, session_settings.
  cbn [views fs trace].
  rewrite !update_nth_last. cbn [file_name vsettings].
  reflexivity.
Qed.

(** The open flow keeps the sessions of the window apart, however it
    ends. *)
Lemma run_at_most_one_session (g : dict) (pr : option dict)
  (alias path : string) (c : json) (tmp : string) (p : process) (w : world) :
  at_most_one_session (views w) ->
  at_most_one_session (views (final_world (run str_of py_isdigit py_int g pr alias path c tmp p w))).
Proof.
  intros Hone.
  destruct (resolved_config g pr c alias) as [| | | | |sc] eqn:Hres;
    try (unfold run; unfold resolved_config in Hres; rewrite Hres; exact Hone).
  destruct (find_session (compose_scp_path str_of sc alias (fst (split_line path)))
                         (views w)) as [i|] eqn:Hfind.
  - rewrite (run_reuse _ _ _ _ _ _ _ _ _ _ Hres Hfind).
    rewrite position_views. exact Hone.
  - rewrite (run_new _ _ _ _ _ _ _ _ _ Hres Hfind).
    destruct (frames_scp str_of
                (JStr (compose_scp_path str_of sc alias (fst (split_line path))))
                (JStr (OsPath.join tmp (OsPath.basename (fst (split_line path)))))
                (resolved_policy g pr c) p (after_mkdtemp tmp w)) as [Hv _].
    destruct (scp str_of _ _ _ p (after_mkdtemp tmp w)) as [[] w2|e w2];
      cbn [final_world views after_mkdtemp] in Hv.
    + destruct (path_exists _ (fs w2)); cbn [final_world].
      * rewrite position_views. cbn [with_session views]. rewrite Hv.
        apply at_most_one_session_app; assumption.
      * rewrite Hv. exact Hone.
    + cbn [final_world]. rewrite Hv. exact Hone.
Qed.

(** X15: an open flow that fetches and ends without the local copy adds no
    view and leaves the directory that [mkdtemp] made where it is, as
    long as the process itself has not removed it. *)
Lemma aborted_open_keeps_directory (g : dict) (pr : option dict)
  (alias path : string) (c : json) (tmp : string) (p : process) (w w' : world)
  (sc : dict) :
  resolved_config g pr c alias = JDict sc ->
  find_session (compose_scp_path str_of sc alias (fst (split_line path)))
               (views w) = None ->
  run str_of py_isdigit py_int g pr alias path c tmp p w = Ok tt w' ->
  path_exists (OsPath.join tmp (OsPath.basename (fst (split_line path))))
              (fs w') = false ->
  is_dir tmp (fs_after (p (fs (after_mkdtemp tmp w)))) = true ->
  views w' = views w /\ is_dir tmp (fs w') = true.
Proof.
  intros Hres Hfresh Hrun Hgone Hleft.
  rewrite (run_new _ _ _ _ _ _ _ _ _ Hres Hfresh) in Hrun.
  pose proof (frames_scp str_of
                (JStr (compose_scp_path str_of sc alias (fst (split_line path))))
                (JStr (OsPath.join tmp (OsPath.basename (fst (split_line path)))))
                (resolved_policy g pr c) p (after_mkdtemp tmp w)) as [Hv _].
  pose proof (scp_dirs str_of
                (JStr (compose_scp_path str_of sc alias (fst (split_line path))))
                (JStr (OsPath.join tmp (OsPath.basename (fst (split_line path)))))
                (resolved_policy g pr c) p (after_mkdtemp tmp w)) as Hd.
  destruct (scp str_of _ _ _ p (after_mkdtemp tmp w)) as [[] w2|e w2];
    [|discriminate].
  cbn [final_world views after_mkdtemp] in Hv, Hd.
  destruct (path_exists _ (fs w2)) eqn:Hthere.
  - apply position_final in Hrun.
    rewrite <- Hrun, positioned_fs in Hgone. cbn [with_session fs] in Hgone.
    congruence.
  - injection Hrun as Hw. subst w'. split; [exact Hv|].
    unfold is_dir in *. rewrite Hd. exact Hleft.
Qed.


End RunFacts.



(** C7 fails on the code: the fetch ends in a fatal error, the flow
    stops with no session and no local copy, and the temporary directory
    that [mkdtemp] made is still there: nothing removes it. *)
Theorem fatal_fetch_leaves_temp_directory :
  let w := final_world
             (run str_scalar PyStr.ascii_isdigit PyStr.ascii_int global_with_aliases None "prod" "/etc/app.conf"
                  (JBool true) "/tmp/tmpk3" permission_denied empty_world) in
  run str_scalar PyStr.ascii_isdigit PyStr.ascii_int global_with_aliases None "prod" "/etc/app.conf" (JBool true)
      "/tmp/tmpk3" permission_denied empty_world = Ok tt w /\
  trace w =
    [Mkdtemp "/tmp/tmpk3";
     Spawn (scp_command str_scalar (JStr remote_conf) (JStr local_conf));
     ErrorMessage "scp: /etc/app.conf: Permission denied"] /\
  views w = [] /\
  path_exists local_conf (fs w) = false /\
  is_dir "/tmp/tmpk3" (fs empty_world) = false /\
  is_dir "/tmp/tmpk3" (fs w) = true.
Proof. repeat split. Qed.

Section SilentFailure.

Variable str_of : json -> string.
Variable py_isdigit : string -> bool.
Variable py_int : string -> option N.

(** C10: a process that exits with status 1 and an empty error text
    makes [scp] do nothing of its own, whatever the policy and the
    locations: no message, no status line, no file.  In the open flow the
    world is then as [mkdtemp] and the process left it, and when the
    local copy is not there the flow stops without a view, a session or
    a word to the user. *)
Theorem silent_failure_aborts_open (g : dict) (pr : option dict)
  (alias path : string) (c : json) (tmp : string) (p : process) (w : world)
  (sc : dict) :
  resolved_config g pr c alias = JDict sc ->
  let scp_path := compose_scp_path str_of sc alias (fst (split_line path)) in
  let temp_path := OsPath.join tmp (OsPath.basename (fst (split_line path))) in
  let w1 := after_mkdtemp tmp w in
  let w2 := after_process (scp_command str_of (JStr scp_path) (JStr temp_path)) p w1 in
  find_session scp_path (views w) = None ->
  returncode (p (fs w1)) = 1%Z ->
  stderr (p (fs w1)) = EmptyString ->
  path_exists temp_path (fs_after (p (fs w1))) = false ->
  (forall cim : json,
      scp str_of (JStr scp_path) (JStr temp_path) cim p w1 = Ok tt w2) /\
  run str_of py_isdigit py_int g pr alias path c tmp p w = Ok tt w2 /\
  views w2 = views w /\
  fs w2 = fs_after (p (fs w1)) /\
  trace w2 =
    trace w ++ [Mkdtemp tmp;
                Spawn (scp_command str_of (JStr scp_path) (JStr temp_path))].
Proof.
  intros Hres scp_path temp_path w1 w2 Hfresh Hrc Herr Hgone.
  assert (Hscp : forall cim, scp str_of (JStr scp_path) (JStr temp_path) cim p w1
                             = Ok tt w2).
  { intros cim. apply scp_not_classified. right. exact Herr. }
  split; [exact Hscp|]. split.
  - rewrite (run_new _ _ _ _ _ _ _ _ _ _ _ _ Hres Hfresh).
    fold scp_path temp_path w1. rewrite Hscp.
    cbn [w2 after_process fs]. fold w1. rewrite Hgone. reflexivity.
  - split; [reflexivity|]. split; [reflexivity|].
    cbn [w2 w1 after_process after_mkdtemp trace].
    rewrite <- app_assoc. reflexivity.
Qed.

End SilentFailure.

Lemma silent_failure_aborts_open_witness :
  run str_scalar PyStr.ascii_isdigit PyStr.ascii_int global_with_aliases None "prod" "/etc/app.conf" (JBool true)
      "/tmp/tmpk3" silent_failure empty_world
  = Ok tt (mkWorld [] (mkFs ["/"; "/tmp"; "/tmp/tmpk3"] [])
                   [Mkdtemp "/tmp/tmpk3";
                    Spawn (scp_command str_scalar (JStr remote_conf)
                                       (JStr local_conf))]).
Proof.
  exact (proj1 (proj2
    (silent_failure_aborts_open str_scalar PyStr.ascii_isdigit PyStr.ascii_int global_with_aliases None "prod"
       "/etc/app.conf" (JBool true) "/tmp/tmpk3" silent_failure empty_world
       [("address", JStr "10.0.0.5"); ("username", JStr "dev")]
       eq_refl eq_refl eq_refl eq_refl eq_refl))).
Defined.

(** ** The line number of the open flow *)

Lemma contains_char_cons (c a : ascii) (r : string) :
  PyStr.contains (String c EmptyString) (String a r) =
  Ascii.eqb a c || PyStr.contains (String c EmptyString) r.
Proof.
  cbn [PyStr.contains String.prefix].
  destruct (Ascii.ascii_dec c a) as [->|Hne].
  - rewrite Ascii.eqb_refl. destruct r; reflexivity.
  - destruct (Ascii.eqb_spec a c) as [->|_]; [congruence|reflexivity].
Qed.

Lemma split_first_spec (c : ascii) (s : string) :
  match PyStr.split_first c s with
  | Some (h, t) =>
      s = (h ++ String c t)%string /\
      PyStr.contains (String c EmptyString) h = false /\
      PyStr.contains (String c EmptyString) s = true
  | None => PyStr.contains (String c EmptyString) s = false
  end.
Proof.
  induction s as [|a r IH].
  - reflexivity.
  - cbn [PyStr.split_first]. rewrite contains_char_cons.
    destruct (Ascii.eqb_spec a c) as [->|Hne].
    + repeat split.
    + destruct (PyStr.split_first c r) as [[h t]|].
      * destruct IH as (-> & Hh & Hs). repeat split.
        -- rewrite contains_char_cons, Hh.
           destruct (Ascii.eqb_spec a c); [contradiction|reflexivity].
        -- exact Hs.
      * exact IH.
Qed.

Lemma int_from_app (acc : N) (s t : string) :
  PyStr.int_from acc (s ++ t)%string = PyStr.int_from (PyStr.int_from acc s) t.
Proof.
  revert acc. induction s as [|a s IH]; intros acc; cbn [String.append PyStr.int_from].
  - reflexivity.
  - apply IH.
Qed.

Lemma all_digits_app (s t : string) :
  PyStr.all_digits (s ++ t)%string = PyStr.all_digits s && PyStr.all_digits t.
Proof.
  induction s as [|a s IH]; cbn [String.append PyStr.all_digits]; [reflexivity|].
  rewrite IH. apply Bool.andb_assoc.
Qed.

(** The ASCII reading used in the examples is the decimal one: a digit
    appended to a number text multiplies the number by ten and adds the
    digit, and a single digit reads as itself. *)
Lemma ascii_int_decimal (s : string) (d : ascii) (n : N) :
  PyStr.is_digit d = true ->
  (PyStr.ascii_int s = Some n ->
   PyStr.ascii_int (s ++ String d EmptyString)%string =
   Some (10 * n + (N.of_nat (nat_of_ascii d) - 48))%N) /\
  PyStr.ascii_int (String d EmptyString) = Some (N.of_nat (nat_of_ascii d) - 48)%N.
Proof.
  intros Hd. split.
  - unfold PyStr.ascii_int, PyStr.ascii_isdigit.
    destruct s as [|a s]; cbn [PyStr.nonempty andb]; [discriminate|].
    destruct (PyStr.all_digits (String a s)) eqn:Hs; [|discriminate].
    intros H. injection H as <-.
    change (String a s ++ String d EmptyString)%string
      with (String a (s ++ String d EmptyString)).
    cbn [PyStr.nonempty andb].
    change (String a (s ++ String d EmptyString))
      with (String a s ++ String d EmptyString)%string.
    rewrite all_digits_app, Hs, int_from_app.
    cbn [PyStr.all_digits PyStr.int_from andb]. rewrite Hd. reflexivity.
  - unfold PyStr.ascii_int, PyStr.ascii_isdigit.
    cbn [PyStr.nonempty PyStr.all_digits PyStr.int_from andb]. rewrite Hd.
    cbn [andb]. f_equal.
Qed.

Section LineNumber.

Variable str_of : json -> string.
Variable py_isdigit : string -> bool.
Variable py_int : string -> option N.

(** C5, as the code has it.  The path is cut at its first colon: the
    text before it is the path that is transferred, the text after it is
    the line number text; a path without a colon is transferred whole
    with the line number text "0".  Once a view is found or opened it is
    focused.  When the line number text is not empty and [str.isdigit]
    holds of it (digits of any script), the selection is cleared and the
    cursor is put on the line that [int] reads, a [ValueError] ending the
    flow when [int] rejects the text; so a path without a colon puts the
    cursor on line 0.  A text after the first colon of which [isdigit]
    does not hold is dropped from the path and puts the cursor
    nowhere. *)
Theorem open_line_number (g : dict) (pr : option dict) (alias path : string)
  (c : json) (tmp : string) (p : process) (w : world) (sc : dict) :
  resolved_config g pr c alias = JDict sc ->
  let remote := fst (split_line path) in
  let line_no := snd (split_line path) in
  let scp_path := compose_scp_path str_of sc alias remote in
  let temp_path := OsPath.join tmp (OsPath.basename remote) in
  ((PyStr.contains ":" path = false /\ remote = path /\ line_no = "0") \/
   (path = (remote ++ ":" ++ line_no)%string /\
    PyStr.contains ":" remote = false)) /\
  (forall i,
      find_session scp_path (views w) = Some i ->
      run str_of py_isdigit py_int g pr alias path c tmp p w =
      position py_isdigit py_int i line_no w) /\
  (forall w2,
      find_session scp_path (views w) = None ->
      scp str_of (JStr scp_path) (JStr temp_path) (resolved_policy g pr c) p
          (after_mkdtemp tmp w) = Ok tt w2 ->
      path_exists temp_path (fs w2) = true ->
      run str_of py_isdigit py_int g pr alias path c tmp p w =
      position py_isdigit py_int (length (views w)) line_no
               (with_session scp_path temp_path (resolved_policy g pr c) w2)) /\
  (forall i w0,
      position py_isdigit py_int i line_no w0 =
      if PyStr.nonempty line_no && py_isdigit line_no then
        match py_int line_no with
        | Some row =>
            Ok tt (mkWorld (views w0) (fs w0)
                     (trace w0 ++ [FocusView i; ClearSelection i; ShowLine i row]))
        | None =>
            Raised ValueError
                   (mkWorld (views w0) (fs w0)
                      (trace w0 ++ [FocusView i; ClearSelection i]))
        end
      else Ok tt (mkWorld (views w0) (fs w0) (trace w0 ++ [FocusView i]))) /\
  (PyStr.contains ":" path = false ->
   py_isdigit "0" = true ->
   py_int "0" = Some 0%N ->
   forall i w0,
     position py_isdigit py_int i line_no w0 =
     Ok tt (mkWorld (views w0) (fs w0)
              (trace w0 ++ [FocusView i; ClearSelection i; ShowLine i 0]))).
Proof.
  intros Hres remote line_no scp_path temp_path.
  split; [|split; [|split; [|split]]].
  - subst remote line_no. unfold split_line.
    destruct (PyStr.contains ":" path) eqn:Hc.
    + right. pose proof (split_first_spec ":"%char path) as Hs.
      destruct (PyStr.split_first ":"%char path) as [[h t]|].
      * destruct Hs as (Hp & Hh & _). cbn [fst snd]. split; assumption.
      * rewrite Hs in Hc. discriminate.
    + left. repeat split.
  - intros i Hfind. apply (run_reuse _ _ _ _ _ _ _ _ _ _ _ _ _ Hres Hfind).
  - intros w2 Hfresh Hscp Hthere.
    rewrite (run_new _ _ _ _ _ _ _ _ _ _ _ _ Hres Hfresh).
    fold remote scp_path temp_path. rewrite Hscp, Hthere.
    destruct (frames_scp str_of (JStr scp_path) (JStr temp_path)
                (resolved_policy g pr c) p (after_mkdtemp tmp w)) as [Hv _].
    rewrite Hscp in Hv. cbn [final_world after_mkdtemp views] in Hv.
    rewrite Hv. reflexivity.
  - intros i w0. apply position_cases.
  - intros Hc Hdigit Hint i w0. rewrite position_cases.
    assert (Hline : line_no = "0").
    { subst line_no. unfold split_line. rewrite Hc. reflexivity. }
    rewrite Hline, Hdigit, Hint. reflexivity.
Qed.

End LineNumber.

Lemma open_line_number_witness :
  run str_scalar PyStr.ascii_isdigit PyStr.ascii_int global_with_aliases None
      "prod" "/etc/app.conf:120" JNull "/tmp/tmpk3" copies_conf empty_world
  = Ok tt (mkWorld
             [mkView local_conf (session_settings remote_conf local_conf JNull)]
             (mkFs ["/"; "/tmp"; "/tmp/tmpk3"] [(local_conf, "port = 8080")])
             [Mkdtemp "/tmp/tmpk3";
              Spawn (scp_command str_scalar (JStr remote_conf) (JStr local_conf));
              OpenFile local_conf;
              FocusView 0; ClearSelection 0; ShowLine 0 120]).
Proof.
  destruct (open_line_number str_scalar PyStr.ascii_isdigit PyStr.ascii_int
              global_with_aliases None "prod" "/etc/app.conf:120" JNull
              "/tmp/tmpk3" copies_conf empty_world
              [("address", JStr "10.0.0.5"); ("username", JStr "dev")] eq_refl)
    as (_ & _ & Hnew & Hpos & _).
  rewrite (Hnew _ eq_refl eq_refl eq_refl). rewrite Hpos. reflexivity.
Defined.

(** C5 fails as stated: the text after the colon is not a number, and
    it is not kept in the path that is transferred; the request for
    "/etc/app.conf:abc" fetches "/etc/app.conf".  The last colon does
    not count either: "/etc/app.conf:b:3" ends in ":3" and the cursor
    is put nowhere.  And without a colon the cursor is put on line 0. *)
Lemma open_line_number_suffix_dropped :
  let open path :=
    trace (final_world
             (run str_scalar PyStr.ascii_isdigit PyStr.ascii_int
                  global_with_aliases None "prod" path JNull "/tmp/tmpk3"
                  copies_conf empty_world)) in
  let fetched :=
    [Mkdtemp "/tmp/tmpk3";
     Spawn (scp_command str_scalar (JStr "dev@10.0.0.5:/etc/app.conf")
                        (JStr "/tmp/tmpk3/app.conf"));
     OpenFile "/tmp/tmpk3/app.conf"] in
  open "/etc/app.conf:abc" = fetched ++ [FocusView 0] /\
  open "/etc/app.conf:b:3" = fetched ++ [FocusView 0] /\
  open "/etc/app.conf" =
    fetched ++ [FocusView 0; ClearSelection 0; ShowLine 0 0].
Proof. repeat split. Qed.

(** ** The close flow *)







Lemma filter_remove_nth_le {A : Type} (f : A -> bool) (l : list A) (i : nat) :
  (length (filter f (remove_nth i l)) <= length (filter f l))%nat.
Proof.
  revert i. induction l as [|a l IH]; intros [|i]; simpl; try lia.
  - destruct (f a); simpl; lia.
  - specialize (IH i). destruct (f a); simpl; lia.
Qed.

Lemma close_view_views (i : nat) (w : world) :
  views (final_world (close_view i w)) = remove_nth i (views w).
Proof.
  unfold close_view. destruct (nth_error (views w) i) as [v|] eqn:Hn.
  - unfold on_close. destruct (_ && _); [|reflexivity].
    unfold bind, unlink, rmdir_of.
    destruct (dict_get "temp_path" (vsettings v)); try reflexivity.
    unfold fs_op. cbn [fs views trace].
    destruct (fs_unlink s (fs w)); [reflexivity|].
    cbn [fs]. destruct (fs_rmdir (OsPath.dirname s) f); reflexivity.
  - cbn [final_world]. revert i Hn.
    induction (views w) as [|a l IH]; intros [|i] Hn; simpl in *;
      try reflexivity; try discriminate.
    rewrite <- (IH i Hn). reflexivity.
Qed.


(** ** The save flow *)

Section SaveFacts.

Variable str_of : json -> string.
Variable py_isdigit : string -> bool.
Variable py_int : string -> option N.



(** In every world the editor can be in, no two views of the window are
    sessions of the same remote file. *)
Lemma reachable_at_most_one_session (w : world) :
  reachable str_of py_isdigit py_int w -> at_most_one_session (views w).
Proof.
  induction 1 as [f t|r w Hw IH|i w Hw IH].
  - intros s. simpl. lia.
  - destruct r as [g pr alias path c tmp p|i p]; cbn [handle].
    + apply run_at_most_one_session. exact IH.
    + assert (Hsame : views (final_world (save_view str_of i p w)) = views w).
      { unfold save_view. destruct (nth_error (views w) i) as [v|]; [|reflexivity].
        unfold on_post_save. destruct (_ && _); [|reflexivity].
        apply frames_scp. }
      rewrite Hsame. exact IH.
  - rewrite close_view_views. intros s.
    pose proof (filter_remove_nth_le (is_session_of s) (views w) i).
    specialize (IH s). lia.
Qed.


End SaveFacts.


(** ** More on [get_settings] *)

Lemma fold_layers_policy_ignored (layers : list (option dict)) :
  forall s : settings,
    create_if_missing s = JNull ->
    create_if_missing (snd (fold_left layer_step layers (JNull, s))) = JNull.
Proof.
  induction layers as [|l layers IH]; intros s Hs; cbn [fold_left].
  - exact Hs.
  - destruct l as [d|]; [|apply IH; exact Hs].
    unfold layer_step. destruct d as [|kv d]; cbn; apply IH; exact Hs.
Qed.

Lemma fold_layers_policy_consulted (layers : list (option dict)) (c0 : json) :
  forall (cv : json) (s : settings) (o : option dict),
    cv <> JNull ->
    create_if_missing s =
      match o with
      | Some d => bool_or_false (dict_get "create_if_missing" d)
      | None => c0
      end ->
    create_if_missing (snd (fold_left layer_step layers (cv, s))) =
    match fold_left (fun a l => match l with Some d => Some d | None => a end)
                    layers o with
    | Some d => bool_or_false (dict_get "create_if_missing" d)
    | None => c0
    end.
Proof.
  induction layers as [|l layers IH]; intros cv s o Hcv Hs; cbn [fold_left].
  - exact Hs.
  - destruct l as [d|]; [|apply IH; assumption].
    destruct (layer_step_consulted cv s d Hcv) as [Hfst Hsnd].
    destruct (layer_step (cv, s) (Some d)) as [cv' s'].
    cbn [fst snd] in Hfst, Hsnd.
    apply IH; [|exact Hsnd].
    rewrite Hfst. apply bool_or_false_not_none.
Qed.

(** X1: the [create_if_missing] that [get_settings] returns, for any
    sequence of layers.  When the caller passes [None] the layers are not
    read and the result is [None].  Otherwise it is the caller's value
    when every layer is [None], and else the value of the last present
    layer when that is a boolean and [False] when it is not. *)
Theorem get_settings_from_policy (layers : list (option dict)) (cim : json) :
  create_if_missing (get_settings_from layers cim) =
  if is_none cim then JNull
  else match last_present layers with
       | Some d => bool_or_false (dict_get "create_if_missing" d)
       | None => cim
       end.
Proof.
  unfold get_settings_from, last_present.
  destruct (is_none cim) eqn:Hn.
  - destruct cim; try discriminate.
    apply fold_layers_policy_ignored. reflexivity.
  - apply fold_layers_policy_consulted; [|reflexivity].
    intros ->. discriminate.
Qed.

Lemma resolved_policy_omitted (g : dict) (pr : option dict) :
  resolved_policy g pr JNull = JNull.
Proof.
  unfold resolved_policy, get_settings, get_settings_from.
  apply fold_layers_policy_ignored. reflexivity.
Qed.

Lemma resolved_config_last_present (g : dict) (pr : option dict) (c : json)
  (alias : string) :
  resolved_config g pr c alias =
  dict_get alias (table_of (match pr with Some d => d | None => g end)).
Proof.
  unfold resolved_config, get_settings, get_settings_from.
  rewrite (fold_layers_ssh_configs _ _ None) by reflexivity.
  destruct pr; reflexivity.
Qed.

Section UnknownAlias.

Variable str_of : json -> string.
Variable py_isdigit : string -> bool.
Variable py_int : string -> option N.

(** X2: the alias is looked up in the table of the project layer when
    there is one, and in the global table only when there is none.  An
    alias that this table lacks is reported as unknown and nothing else
    happens: no directory, no process, no view; this holds for every
    alias when a project layer is present without [ssh_configs], whatever
    the global settings define. *)
Theorem unknown_alias_only_reports (g : dict) (pr : option dict)
  (alias path : string) (c : json) (tmp : string) (p : process) (w : world) :
  dict_get alias (table_of (match pr with Some d => d | None => g end)) = JNull ->
  run str_of py_isdigit py_int g pr alias path c tmp p w =
  Ok tt (record (ErrorMessage
                   ("Cound not find ssh config alias " ++ dq ++ alias ++ dq ++ ".")%string)
                w).
Proof.
  intros H. rewrite <- (resolved_config_last_present g pr c alias) in H.
  unfold resolved_config in H. unfold run. rewrite H. reflexivity.
Qed.

End UnknownAlias.

Lemma unknown_alias_only_reports_witness :
  dict_get "prod" (table_of global_with_aliases) = prod_descriptor /\
  run str_scalar PyStr.ascii_isdigit PyStr.ascii_int global_with_aliases (Some project_without_aliases) "prod"
      "/etc/app.conf" (JBool true) "/tmp/tmpk3" copies_conf empty_world =
  Ok tt (record (ErrorMessage
                   ("Cound not find ssh config alias " ++ dq ++ "prod" ++ dq ++ ".")%string)
                empty_world).
Proof.
  split; [reflexivity|].
  apply (unknown_alias_only_reports str_scalar PyStr.ascii_isdigit PyStr.ascii_int global_with_aliases
           (Some project_without_aliases) "prod" "/etc/app.conf" (JBool true)
           "/tmp/tmpk3" copies_conf empty_world).
  reflexivity.
Defined.

(** ** Fetches that end in an error *)

Lemma contains_char_app (c : ascii) (a b : string) :
  PyStr.contains (String c EmptyString) (a ++ b)%string =
  PyStr.contains (String c EmptyString) a || PyStr.contains (String c EmptyString) b.
Proof.
  induction a as [|x a IH].
  - cbn [String.append]. destruct b; reflexivity.
  - cbn [String.append]. rewrite !contains_char_cons, IH.
    apply Bool.orb_assoc.
Qed.

Lemma lacks_app (c : ascii) (a b : string) :
  PyStr.lacks c (a ++ b)%string = PyStr.lacks c a && PyStr.lacks c b.
Proof. unfold PyStr.lacks. rewrite contains_char_app. apply Bool.negb_orb. Qed.

Section FatalFetch.

Variable str_of : json -> string.
Variable py_isdigit : string -> bool.
Variable py_int : string -> option N.

(** A fetch that [scp] classifies as fatal and that leaves no local copy
    ends the open flow with the error text on the screen and nothing
    else. *)
Lemma fatal_open_aborts (g : dict) (pr : option dict) (alias path : string)
  (c : json) (tmp : string) (p : process) (w : world) (sc : dict) :
  resolved_config g pr c alias = JDict sc ->
  let scp_path := compose_scp_path str_of sc alias (fst (split_line path)) in
  let temp_path := OsPath.join tmp (OsPath.basename (fst (split_line path))) in
  let w1 := after_mkdtemp tmp w in
  find_session scp_path (views w) = None ->
  returncode (p (fs w1)) = 1%Z ->
  stderr (p (fs w1)) <> EmptyString ->
  fatal_test (stderr (p (fs w1))) scp_path (resolved_policy g pr c) = true ->
  path_exists temp_path (fs_after (p (fs w1))) = false ->
  run str_of py_isdigit py_int g pr alias path c tmp p w =
  Ok tt (record (ErrorMessage (stderr (p (fs w1))))
                (after_process (scp_command str_of (JStr scp_path) (JStr temp_path))
                               p w1)).
Proof.
  intros Hres scp_path temp_path w1 Hfresh Hrc Herr Hfatal Hgone.
  rewrite (run_new _ _ _ _ _ _ _ _ _ _ _ _ Hres Hfresh).
  fold scp_path temp_path w1.
  rewrite (scp_classified str_of scp_path temp_path _ p w1 Hrc Herr).
  cbv zeta. rewrite Hfatal.
  cbn [record after_process fs]. rewrite Hgone. reflexivity.
Qed.

(** X3: an open command run without [create_if_missing] (as the prompt
    runs it) goes on with the policy [None], whatever the settings say.
    A fetch that exits with status 1 and an error text then always shows
    the text, also when the text says that the remote file is missing;
    with no local copy the flow ends there: no file is created, no view
    opened, no session registered. *)
Theorem open_without_policy_never_creates (g : dict) (pr : option dict)
  (alias path : string) (tmp : string) (p : process) (w : world) (sc : dict) :
  resolved_config g pr JNull alias = JDict sc ->
  let scp_path := compose_scp_path str_of sc alias (fst (split_line path)) in
  let temp_path := OsPath.join tmp (OsPath.basename (fst (split_line path))) in
  let w1 := after_mkdtemp tmp w in
  find_session scp_path (views w) = None ->
  returncode (p (fs w1)) = 1%Z ->
  stderr (p (fs w1)) <> EmptyString ->
  path_exists temp_path (fs_after (p (fs w1))) = false ->
  resolved_policy g pr JNull = JNull /\
  run str_of py_isdigit py_int g pr alias path JNull tmp p w =
  Ok tt (mkWorld (views w) (fs_after (p (fs w1)))
                 (trace w ++ [Mkdtemp tmp;
                              Spawn (scp_command str_of (JStr scp_path) (JStr temp_path));
                              ErrorMessage (stderr (p (fs w1)))])).
Proof.
  intros Hres scp_path temp_path w1 Hfresh Hrc Herr Hgone.
  split; [apply resolved_policy_omitted|].
  rewrite (fatal_open_aborts g pr alias path JNull tmp p w sc Hres Hfresh Hrc Herr).
  - fold w1 scp_path temp_path.
    unfold record, after_process, w1, after_mkdtemp. cbn [views fs trace].
    rewrite <- !app_assoc. reflexivity.
  - rewrite resolved_policy_omitted. unfold fatal_test. cbn [truthy negb].
    apply Bool.orb_true_r.
  - exact Hgone.
Qed.

(** X4: an alias without [username] whose address has no [@], for a path
    without [@]: the location handed to [scp] has no [@], so [scp] takes
    the source for a local file.  Whatever the policy, a fetch that
    exits with status 1 and an error text shows the text and, with no
    local copy, the flow ends there: a missing remote file is never
    created for such an alias. *)
Theorem open_without_username_never_creates (g : dict) (pr : option dict)
  (alias path : string) (c : json) (tmp : string) (p : process) (w : world)
  (sc : dict) (address : string) :
  resolved_config g pr c alias = JDict sc ->
  dict_has "username" sc = false ->
  dict_get_default "address" (JStr alias) sc = JStr address ->
  PyStr.lacks "@"%char address = true ->
  PyStr.lacks "@"%char (fst (split_line path)) = true ->
  let scp_path := (address ++ ":" ++ fst (split_line path))%string in
  let temp_path := OsPath.join tmp (OsPath.basename (fst (split_line path))) in
  let w1 := after_mkdtemp tmp w in
  find_session scp_path (views w) = None ->
  returncode (p (fs w1)) = 1%Z ->
  stderr (p (fs w1)) <> EmptyString ->
  path_exists temp_path (fs_after (p (fs w1))) = false ->
  compose_scp_path str_of sc alias (fst (split_line path)) = scp_path /\
  run str_of py_isdigit py_int g pr alias path c tmp p w =
  Ok tt (mkWorld (views w) (fs_after (p (fs w1)))
                 (trace w ++ [Mkdtemp tmp;
                              Spawn (scp_command str_of (JStr scp_path) (JStr temp_path));
                              ErrorMessage (stderr (p (fs w1)))])).
Proof.
  intros Hres Huser Haddr Hla Hlp scp_path temp_path w1 Hfresh Hrc Herr Hgone.
  assert (Hcompose : compose_scp_path str_of sc alias (fst (split_line path))
                     = scp_path).
  { unfold compose_scp_path. rewrite Huser, Haddr. reflexivity. }
  split; [exact Hcompose|].
  rewrite <- Hcompose in Hfresh.
  rewrite (fatal_open_aborts g pr alias path c tmp p w sc Hres Hfresh Hrc Herr).
  - rewrite Hcompose. fold w1 temp_path.
    unfold record, after_process, w1, after_mkdtemp. cbn [views fs trace].
    rewrite <- !app_assoc. reflexivity.
  - rewrite Hcompose. unfold fatal_test, scp_path.
    rewrite !lacks_app, Hla, Hlp. cbn.
    rewrite Bool.orb_true_r. reflexivity.
  - exact Hgone.
Qed.

End FatalFetch.

Lemma open_without_policy_never_creates_witness :
  run str_scalar PyStr.ascii_isdigit PyStr.ascii_int global_with_aliases None "prod" "/etc/app.conf" JNull
      "/tmp/tmpk3" no_such_file empty_world =
  Ok tt (mkWorld [] (mkFs ["/"; "/tmp"; "/tmp/tmpk3"] [])
           [Mkdtemp "/tmp/tmpk3";
            Spawn (scp_command str_scalar (JStr remote_conf) (JStr local_conf));
            ErrorMessage "scp: /etc/app.conf: No such file or directory"]).
Proof.
  assert (Herr : stderr (no_such_file (fs (after_mkdtemp "/tmp/tmpk3" empty_world)))
                 <> EmptyString) by discriminate.
  exact (proj2
    (open_without_policy_never_creates str_scalar PyStr.ascii_isdigit PyStr.ascii_int global_with_aliases None
       "prod" "/etc/app.conf" "/tmp/tmpk3" no_such_file empty_world
       [("address", JStr "10.0.0.5"); ("username", JStr "dev")]
       eq_refl eq_refl eq_refl Herr eq_refl)).
Defined.

Lemma open_without_username_never_creates_witness :
  run str_scalar PyStr.ascii_isdigit PyStr.ascii_int without_username None "box" "/etc/app.conf" (JBool true)
      "/tmp/tmpk3" no_such_file empty_world =
  Ok tt (mkWorld [] (mkFs ["/"; "/tmp"; "/tmp/tmpk3"] [])
           [Mkdtemp "/tmp/tmpk3";
            Spawn (scp_command str_scalar (JStr "10.0.0.9:/etc/app.conf")
                               (JStr local_conf));
            ErrorMessage "scp: /etc/app.conf: No such file or directory"]).
Proof.
  assert (Herr : stderr (no_such_file (fs (after_mkdtemp "/tmp/tmpk3" empty_world)))
                 <> EmptyString) by discriminate.
  exact (proj2
    (open_without_username_never_creates str_scalar PyStr.ascii_isdigit PyStr.ascii_int without_username None
       "box" "/etc/app.conf" (JBool true) "/tmp/tmpk3" no_such_file empty_world
       [("address", JStr "10.0.0.9")] "10.0.0.9"
       eq_refl eq_refl eq_refl eq_refl eq_refl eq_refl eq_refl Herr eq_refl)).
Defined.

(** ** What [scp] leaves on the local disk *)

Section ScpFiles.

Variable str_of : json -> string.

(** X5: whatever its arguments and whatever the process does, [scp]
    itself removes nothing and adds no directory, and it writes a file in
    one situation only: exit status 1, an error text that holds "no such
    file or directory" and not "please try again", a source with an [@],
    a destination without one and a true policy.  The file is then the
    empty destination file.  In every other case the local files are
    those the process left. *)
Theorem scp_creates_only_missing_remote (from_path to_path cim : json)
  (p : process) (w : world) :
  let after := fs (final_world (scp str_of from_path to_path cim p w)) in
  let left := fs_after (p (fs w)) in
  dirs after = dirs left /\
  (files after = files left \/
   exists f t : string,
     from_path = JStr f /\ to_path = JStr t /\
     PyStr.lacks "@"%char f = false /\ PyStr.lacks "@"%char t = true /\
     truthy cim = true /\
     returncode (p (fs w)) = 1%Z /\
     PyStr.contains "no such file or directory" (PyStr.lower (stderr (p (fs w))))
       = true /\
     PyStr.contains "please try again" (PyStr.lower (stderr (p (fs w)))) = false /\
     files after = (t, EmptyString) :: files (remove_file t left)).
Proof.
  intros after left. split; [apply scp_dirs|].
  subst after left. unfold scp, bind, popen.
  destruct (Z.eqb_spec (returncode (p (fs w))) 1) as [Hrc|Hrc]; [|left; reflexivity].
  destruct (PyStr.nonempty (stderr (p (fs w)))); [|left; reflexivity].
  unfold is_fatal, bind, ret.
  destruct (PyStr.contains "no such file or directory"
                           (PyStr.lower (stderr (p (fs w))))) eqn:Hmiss;
    cbn [negb]; [|left; reflexivity].
  destruct (PyStr.contains "please try again"
                           (PyStr.lower (stderr (p (fs w))))) eqn:Hretry;
    [left; reflexivity|].
  destruct from_path as [| | |f| |]; cbv beta iota delta [no_at ret raise];
    try (left; reflexivity).
  destruct (PyStr.lacks "@"%char f) eqn:Hf; [left; reflexivity|].
  destruct (truthy cim) eqn:Hcim; cbn [negb]; [|left; reflexivity].
  destruct to_path as [| | |t| |]; cbv beta iota delta [no_at ret raise];
    try (left; reflexivity).
  destruct (PyStr.lacks "@"%char t) eqn:Ht; cbn [andb]; [|left; reflexivity].
  unfold emit, create_empty, fs_op. cbn [record fs after_process].
  unfold fs_create.
  destruct (is_dir (strip_slashes t) (fs_after (p (fs w)))); [left; reflexivity|].
  destruct (negb (PyStr.nonempty (OsPath.dirname t))
            || is_dir (OsPath.dirname t) (fs_after (p (fs w))));
    [|left; reflexivity].
  right. exists f, t. repeat split; assumption.
Qed.

End ScpFiles.

(** ** The temporary path and its directory *)

Lemma after_last_no_char (c : ascii) (s : string) :
  PyStr.contains (String c EmptyString) (PyStr.after_last c s) = false.
Proof.
  induction s as [|a r IH]; [reflexivity|].
  cbn [PyStr.after_last].
  destruct (PyStr.contains (String c EmptyString) r) eqn:Hr; [exact IH|].
  destruct (Ascii.eqb a c) eqn:Ha; [exact Hr|].
  rewrite contains_char_cons, Ha, Hr. reflexivity.
Qed.

Lemma prefix_char_contains (c : ascii) (b : string) :
  PyStr.contains (String c EmptyString) b = false ->
  String.prefix (String c EmptyString) b = false.
Proof.
  destruct b as [|x b]; [reflexivity|].
  cbn [PyStr.contains]. intros H.
  apply Bool.orb_false_iff in H. exact (proj1 H).
Qed.

Lemma upto_last_app (c : ascii) (a b : string) :
  PyStr.contains (String c EmptyString) b = false ->
  PyStr.upto_last c (a ++ String c b)%string = (a ++ String c EmptyString)%string.
Proof.
  intros Hb. induction a as [|x a IH]; cbn [String.append PyStr.upto_last].
  - rewrite Hb, Ascii.eqb_refl. reflexivity.
  - rewrite contains_char_app, contains_char_cons, Ascii.eqb_refl.
    rewrite Bool.orb_true_r. rewrite IH. reflexivity.
Qed.

Lemma after_last_app (c : ascii) (a b : string) :
  PyStr.contains (String c EmptyString) b = false ->
  PyStr.after_last c (a ++ String c b)%string = b.
Proof.
  intros Hb. induction a as [|x a IH]; cbn [String.append PyStr.after_last].
  - rewrite Hb, Ascii.eqb_refl. reflexivity.
  - rewrite contains_char_app, contains_char_cons, Ascii.eqb_refl.
    rewrite Bool.orb_true_r. exact IH.
Qed.

Lemma rstrip_snoc (c : ascii) (a : string) :
  PyStr.rstrip c (a ++ String c EmptyString)%string = PyStr.rstrip c a.
Proof.
  induction a as [|x a IH]; cbn [String.append PyStr.rstrip].
  - rewrite Ascii.eqb_refl. reflexivity.
  - rewrite IH. reflexivity.
Qed.

Lemma rstrip_id (c : ascii) (a : string) :
  PyStr.ends_with c a = false -> PyStr.rstrip c a = a.
Proof.
  induction a as [|x r IH]; [reflexivity|].
  intros H. cbn [PyStr.rstrip]. destruct r as [|y r'].
  - cbn [PyStr.ends_with] in H. cbn [PyStr.rstrip]. rewrite H. reflexivity.
  - rewrite IH by exact H. reflexivity.
Qed.

Lemma join_in_tmp (tmp path : string) :
  tmp <> EmptyString ->
  PyStr.ends_with OsPath.sep tmp = false ->
  OsPath.join tmp (OsPath.basename path) =
  (tmp ++ String OsPath.sep (OsPath.basename path))%string.
Proof.
  intros Htmp Hend. unfold OsPath.join.
  assert (Hb : PyStr.contains (String OsPath.sep EmptyString)
                              (OsPath.basename path) = false)
    by apply after_last_no_char.
  rewrite (prefix_char_contains _ _ Hb), Hend.
  destruct tmp; [congruence|reflexivity].
Qed.

Lemma dirname_in_tmp (tmp base : string) :
  tmp <> EmptyString ->
  PyStr.ends_with OsPath.sep tmp = false ->
  PyStr.contains (String OsPath.sep EmptyString) base = false ->
  OsPath.dirname (tmp ++ String OsPath.sep base)%string = tmp.
Proof.
  intros Htmp Hend Hbase. unfold OsPath.dirname.
  rewrite (upto_last_app _ _ _ Hbase), rstrip_snoc, (rstrip_id _ _ Hend).
  destruct tmp; [congruence|reflexivity].
Qed.

(** X6: the temporary path of line 175 lies directly in the directory
    that [mkdtemp] made (a name that is not empty and does not end in a
    slash): its [dirname], which [on_close] removes, is that directory,
    and its [basename] is the one of the remote path. *)
Theorem dirname_join_basename (tmp path : string) :
  tmp <> EmptyString ->
  PyStr.ends_with OsPath.sep tmp = false ->
  let temp_path := OsPath.join tmp (OsPath.basename path) in
  temp_path = (tmp ++ "/" ++ OsPath.basename path)%string /\
  OsPath.dirname temp_path = tmp /\
  OsPath.basename temp_path = OsPath.basename path.
Proof.
  intros Htmp Hend temp_path.
  assert (Hbase : PyStr.contains (String OsPath.sep EmptyString)
                                 (OsPath.basename path) = false)
    by apply after_last_no_char.
  assert (Hjoin : temp_path = (tmp ++ String OsPath.sep (OsPath.basename path))%string)
    by apply (join_in_tmp tmp path Htmp Hend).
  split; [exact Hjoin|]. rewrite Hjoin. split.
  - apply (dirname_in_tmp tmp _ Htmp Hend Hbase).
  - unfold OsPath.basename at 1. apply (after_last_app _ _ _ Hbase).
Qed.

Lemma dirname_join_basename_witness :
  OsPath.dirname (OsPath.join "/tmp/tmpk3" (OsPath.basename "/etc/app.conf"))
  = "/tmp/tmpk3".
Proof.
  assert (Htmp : "/tmp/tmpk3" <> EmptyString) by discriminate.
  exact (proj1 (proj2 (dirname_join_basename "/tmp/tmpk3" "/etc/app.conf"
                                             Htmp eq_refl))).
Defined.

(** ** From the open to the close *)



Section Lifecycle.

Variable str_of : json -> string.
Variable py_isdigit : string -> bool.
Variable py_int : string -> option N.



End Lifecycle.


(** ** The prompt command *)

Lemma insert_by_alias_perm (x : string * string) (l : list (string * string)) :
  Permutation (insert_by_alias x l) (x :: l).
Proof.
  induction l as [|y r IH]; cbn [insert_by_alias]; [reflexivity|].
  destruct (String.leb (fst x) (fst y)); [reflexivity|].
  rewrite IH. apply perm_swap.
Qed.

Lemma sort_by_alias_perm (l : list (string * string)) :
  Permutation (sort_by_alias l) l.
Proof.
  induction l as [|x r IH]; cbn [sort_by_alias]; [reflexivity|].
  rewrite insert_by_alias_perm. apply perm_skip. exact IH.
Qed.

Lemma insert_by_alias_sorted (x : string * string) (l : list (string * string)) :
  Sorted alias_le l -> Sorted alias_le (insert_by_alias x l).
Proof.
  induction l as [|y r IH]; intros Hs; cbn [insert_by_alias].
  - repeat constructor.
  - destruct (String.leb (fst x) (fst y)) eqn:Hxy.
    + constructor; [exact Hs|]. constructor. exact Hxy.
    + inversion Hs as [|? ? Hr Hhd]; subst.
      constructor; [apply IH; exact Hr|].
      assert (Hyx : alias_le y x).
      { unfold alias_le. destruct (String.leb_total (fst x) (fst y)); congruence. }
      destruct r as [|z r']; cbn [insert_by_alias].
      * constructor. exact Hyx.
      * destruct (String.leb (fst x) (fst z)).
        -- constructor. exact Hyx.
        -- inversion Hhd; subst. constructor. assumption.
Qed.

Lemma sort_by_alias_sorted (l : list (string * string)) :
  Sorted alias_le (sort_by_alias l).
Proof.
  induction l as [|x r IH]; cbn [sort_by_alias]; [constructor|].
  apply insert_by_alias_sorted. exact IH.
Qed.

Lemma dict_find_in (k : string) (d : dict) :
  In k (map fst d) -> exists v, dict_find k d = Some v /\ In (k, v) d.
Proof.
  induction d as [|[k' v'] r IH]; cbn [map fst In dict_find]; [tauto|].
  intros H. destruct (String.eqb_spec k' k) as [->|Hne].
  - exists v'. split; [reflexivity|left; reflexivity].
  - destruct H as [H|H]; [contradiction|].
    destruct (IH H) as (v & Hf & Hin). exists v. split; [exact Hf|right; exact Hin].
Qed.

Section PromptFacts.

Variable str_of : json -> string.
Variable py_isdigit : string -> bool.
Variable py_int : string -> option N.

Lemma collect_aliases_ok (items : dict) (l : list (string * string)) :
  collect_aliases str_of items = inr l ->
  map fst l = map fst items /\
  Forall (fun kv => exists d, snd kv = JDict d) items /\
  Forall2 (fun kv entry =>
             exists d, snd kv = JDict d /\
                       entry = (fst kv,
                                ("Address: " ++ py_str str_of
                                   (dict_get_default "address" (JStr (fst kv)) d))%string))
          items l.
Proof.
  revert l. induction items as [|[a c] r IH]; intros l H; cbn [collect_aliases] in H.
  - injection H as <-. repeat split; constructor.
  - destruct c as [| | | | |d]; cbn [alias_entry] in H; try discriminate.
    destruct (collect_aliases str_of r) as [e|l']; [discriminate|].
    injection H as <-. destruct (IH l' eq_refl) as (Hk & Hd & Hf).
    split; [cbn [map fst]; rewrite Hk; reflexivity|]. split.
    + constructor; [exists d; reflexivity|exact Hd].
    + constructor; [exists d; split; reflexivity|exact Hf].
Qed.

Lemma collect_aliases_error (items : dict) (e : exn) :
  collect_aliases str_of items = inl e ->
  e = AttributeError /\
  Exists (fun kv => forall d, snd kv <> JDict d) items.
Proof.
  induction items as [|[a c] r IH]; intros H; cbn [collect_aliases] in H;
    [discriminate|].
  destruct c as [| | | | |d]; cbn [alias_entry] in H;
    try (injection H as <-; split; [reflexivity|];
         apply Exists_cons_hd; intros d; discriminate).
  destruct (collect_aliases str_of r) as [e'|l']; [|discriminate].
  injection H as <-. destruct (IH eq_refl) as [He Hex].
  split; [exact He|apply Exists_cons_tl; exact Hex].
Qed.

Lemma all_aliases_keys (g : dict) (pr : option dict)
  (entries : list (string * string)) :
  all_aliases str_of g pr = inr entries ->
  Permutation (map fst entries) (map fst (ssh_configs (get_settings g pr JNull))) /\
  Forall (fun kv => exists d, snd kv = JDict d)
         (ssh_configs (get_settings g pr JNull)).
Proof.
  unfold all_aliases. intros H.
  destruct (collect_aliases str_of (ssh_configs (get_settings g pr JNull)))
    as [e|l] eqn:Hc; [discriminate|].
  injection H as <-.
  destruct (collect_aliases_ok _ _ Hc) as (Hk & Hd & _).
  split; [|exact Hd].
  rewrite <- Hk. apply Permutation_map. apply sort_by_alias_perm.
Qed.

(** X8: the quick panel of the prompt.  When every alias of the merged
    table stands for a dict, the panel holds one entry per alias, the
    alias with its address line, in the order of the aliases.  When
    some alias stands for anything else (a string, [null]) the command
    ends in an [AttributeError] and shows no panel. *)
Theorem all_aliases_sorted_permutation (g : dict) (pr : option dict) :
  let table := ssh_configs (get_settings g pr JNull) in
  match all_aliases str_of g pr with
  | inr entries =>
      Sorted alias_le entries /\
      Permutation (map fst entries) (map fst table) /\
      length entries = length table /\
      Forall (fun kv => exists d, snd kv = JDict d) table /\
      forall alias text, In (alias, text) entries ->
        exists d, In (alias, JDict d) table /\
                  text = ("Address: " ++ py_str str_of
                            (dict_get_default "address" (JStr alias) d))%string
  | inl e =>
      e = AttributeError /\
      Exists (fun kv => forall d, snd kv <> JDict d) table
  end.
Proof.
  intros table. unfold all_aliases. fold table.
  destruct (collect_aliases str_of table) as [e|l] eqn:Hc.
  - apply (collect_aliases_error _ _ Hc).
  - destruct (collect_aliases_ok _ _ Hc) as (Hk & Hd & Hf).
    split; [apply sort_by_alias_sorted|]. split.
    + rewrite <- Hk. apply Permutation_map. apply sort_by_alias_perm.
    + split.
      * rewrite (Permutation_length (sort_by_alias_perm l)).
        rewrite <- (length_map fst l), Hk. apply length_map.
      * split; [exact Hd|].
        intros alias text Hin.
        apply (Permutation_in _ (sort_by_alias_perm l)) in Hin.
        clear Hk Hd Hc. induction Hf as [|kv entry r l' Hhd Hf IH].
        -- destruct Hin.
        -- destruct Hin as [Hin|Hin].
           ++ destruct Hhd as (d & Hsnd & Hentry). subst entry.
              injection Hin as <- <-. exists d. split; [|reflexivity].
              left. destruct kv as [k v]. cbn [fst snd] in *. congruence.
           ++ destruct (IH Hin) as (d & Hd & Ht). exists d.
              split; [right; exact Hd|exact Ht].
Qed.


(** X9: choosing from the quick panel.  A selection below 0 (the panel
    was dismissed) or beyond the last entry keeps no alias and asks for
    no path; any other selection keeps the alias of that entry.  The
    alias kept is one of the merged table and stands for a dict there,
    whatever [create_if_missing] the open command is then run with: the
    open command neither reports it as unknown nor fails on it. *)
Theorem offered_alias_resolves (g : dict) (pr : option dict)
  (entries : list (string * string)) (selection : Z) :
  all_aliases str_of g pr = inr entries ->
  (on_alias_done entries selection = None <->
   (selection < 0 \/ Z.of_nat (length entries) <= selection)%Z) /\
  forall alias,
    on_alias_done entries selection = Some alias ->
    (exists text, nth_error entries (Z.to_nat selection) = Some (alias, text)) /\
    exists sc, forall c, resolved_config g pr c alias = JDict sc.
Proof.
  intros Hall.
  assert (Hrange : on_alias_done entries selection = None <->
                   (selection < 0 \/ Z.of_nat (length entries) <= selection)%Z).
  { unfold on_alias_done.
    destruct (Z.ltb_spec selection 0) as [Hlt|Hge]; cbn [orb].
    - split; [left; exact Hlt|reflexivity].
    - destruct (Z.leb_spec (Z.of_nat (length entries)) selection) as [Hle|Hlt].
      + split; [right; exact Hle|reflexivity].
      + destruct (nth_error entries (Z.to_nat selection)) eqn:Hn.
        * cbn [option_map]. split; [discriminate|lia].
        * apply nth_error_None in Hn. lia. }
  split; [exact Hrange|].
  intros alias Hsel. unfold on_alias_done in Hsel.
  destruct ((selection <? 0)%Z || (Z.of_nat (length entries) <=? selection)%Z);
    [discriminate|].
  destruct (nth_error entries (Z.to_nat selection)) as [[a text]|] eqn:Hn;
    [|discriminate].
  injection Hsel as <-.
  split; [exists text; reflexivity|].
  destruct (all_aliases_keys g pr entries Hall) as [Hperm Hdicts].
  assert (Hin : In a (map fst (ssh_configs (get_settings g pr JNull)))).
  { apply (Permutation_in _ Hperm).
    apply nth_error_In in Hn. apply (in_map fst) in Hn. exact Hn. }
  destruct (dict_find_in _ _ Hin) as (v & Hfind & Hv).
  rewrite Forall_forall in Hdicts. destruct (Hdicts _ Hv) as [sc Hsc].
  cbn [snd] in Hsc. subst v.
  exists sc. intros c.
  rewrite resolved_config_last_present.
  rewrite <- (resolved_config_last_present g pr JNull a).
  unfold resolved_config, dict_get. rewrite Hfind. reflexivity.
Qed.

End PromptFacts.

Lemma offered_alias_resolves_witness :
  all_aliases str_scalar global_with_aliases None =
    inr [("live", "Address: 10.0.0.5"); ("prod", "Address: 10.0.0.5")] /\
  on_alias_done [("live", "Address: 10.0.0.5"); ("prod", "Address: 10.0.0.5")] 1
    = Some "prod" /\
  exists sc, forall c, resolved_config global_with_aliases None c "prod" = JDict sc.
Proof.
  split; [reflexivity|]. split; [reflexivity|].
  exact (proj2 (proj2
    (offered_alias_resolves str_scalar global_with_aliases None
       [("live", "Address: 10.0.0.5"); ("prod", "Address: 10.0.0.5")] 1%Z
       eq_refl) "prod" eq_refl)).
Defined.

(** ** Saving *)

Section SaveErrors.

Variable str_of : json -> string.
Variable py_isdigit : string -> bool.
Variable py_int : string -> option N.

(** X10: saving a session whose local path has no [@].  The local copy
    is pushed to the remote location; when the process exits with
    status 1 and an error text, the text is shown, whatever it says and
    whatever the policy, and otherwise nothing is shown (also for any
    other exit status).  In both cases the views, and with them the
    session, are as before and the plugin writes no local file. *)
Theorem failed_save_shows_error (s t : string) (c : json) (p : process)
  (w : world) :
  PyStr.lacks "@"%char t = true ->
  let w1 := after_process (scp_command str_of (JStr t) (JStr s)) p w in
  on_post_save str_of (mkView t (session_settings s t c)) p w =
  if (returncode (p (fs w)) =? 1)%Z && PyStr.nonempty (stderr (p (fs w)))
  then Ok tt (record (ErrorMessage (stderr (p (fs w)))) w1)
  else Ok tt w1.
Proof.
  intros Ht w1. unfold on_post_save. cbn [vsettings].
  change (dict_get "temp_path" (session_settings s t c)) with (JStr t).
  change (dict_get "scp_path" (session_settings s t c)) with (JStr s).
  change (truthy (dict_get "is_remote_edit" (session_settings s t c))
          && dict_has "create_if_missing" (session_settings s t c)
          && dict_has "scp_path" (session_settings s t c)
          && dict_has "temp_path" (session_settings s t c)) with true.
  cbv iota.
  destruct (Z.eqb_spec (returncode (p (fs w))) 1) as [Hrc|Hrc]; cbn [andb].
  - destruct (stderr (p (fs w))) as [|a e] eqn:He; cbn [PyStr.nonempty].
    + apply scp_not_classified. right. exact He.
    + rewrite <- He.
      assert (Herr : stderr (p (fs w)) <> EmptyString) by (rewrite He; discriminate).
      rewrite (scp_classified str_of t s _ p w Hrc Herr). cbv zeta.
      unfold fatal_test. rewrite Ht.
      rewrite Bool.orb_true_r. reflexivity.
  - apply scp_not_classified. left. exact Hrc.
Qed.

(** X11: a view that is not marked [is_remote_edit], or lacks the
    [scp_path] or the [temp_path] setting, is none of the plugin's
    business: saving it spawns nothing, and closing it deletes nothing;
    the world stays as it is. *)
Theorem listeners_ignore_other_views (v : view) (p : process) (w : world) :
  truthy (dict_get "is_remote_edit" (vsettings v)) = false \/
  dict_has "scp_path" (vsettings v) = false \/
  dict_has "temp_path" (vsettings v) = false ->
  on_post_save str_of v p w = Ok tt w /\
  on_close v w = Ok tt w /\
  forall i, nth_error (views w) i = Some v ->
            close_view i w = Ok tt (mkWorld (remove_nth i (views w)) (fs w) (trace w)).
Proof.
  intros H.
  assert (Hsave : truthy (dict_get "is_remote_edit" (vsettings v))
                  && dict_has "create_if_missing" (vsettings v)
                  && dict_has "scp_path" (vsettings v)
                  && dict_has "temp_path" (vsettings v) = false).
  { destruct H as [H|[H|H]]; rewrite H;
      rewrite ?Bool.andb_false_r; reflexivity. }
  assert (Hclose : truthy (dict_get "is_remote_edit" (vsettings v))
                   && dict_has "scp_path" (vsettings v)
                   && dict_has "temp_path" (vsettings v) = false).
  { destruct H as [H|[H|H]]; rewrite H;
      rewrite ?Bool.andb_false_r; reflexivity. }
  split; [unfold on_post_save; rewrite Hsave; reflexivity|].
  split; [unfold on_close; rewrite Hclose; reflexivity|].
  intros i Hn. unfold close_view. rewrite Hn.
  unfold on_close. rewrite Hclose. reflexivity.
Qed.

End SaveErrors.

Lemma failed_save_shows_error_witness :
  on_post_save str_scalar
    (mkView local_conf (session_settings remote_conf local_conf (JBool true)))
    no_such_file opened_world =
  Ok tt (record (ErrorMessage "scp: /etc/app.conf: No such file or directory")
           (after_process (scp_command str_scalar (JStr local_conf) (JStr remote_conf))
                          no_such_file opened_world)).
Proof.
  exact (failed_save_shows_error str_scalar remote_conf local_conf (JBool true)
           no_such_file opened_world eq_refl).
Defined.

Lemma listeners_ignore_other_views_witness :
  close_view 0 plain_world = Ok tt (mkWorld [] empty_fs []).
Proof.
  exact (proj2 (proj2
    (listeners_ignore_other_views str_scalar
       (mkView "/home/dev/notes.txt" [("tab_size", JNum 4)]) exits_zero plain_world
       (or_introl eq_refl))) 0%nat eq_refl).
Defined.

(** ** What holds in every world the editor gets to *)

Lemma Forall_remove_nth {A : Type} (P : A -> Prop) (l : list A) (i : nat) :
  Forall P l -> Forall P (remove_nth i l).
Proof.
  revert i. induction l as [|a l IH]; intros [|i] H; simpl; try exact H.
  - inversion H; assumption.
  - inversion H; subst. constructor; [assumption|apply IH; assumption].
Qed.

Lemma plugin_made_session (s t : string) (c : json) :
  plugin_made (mkView t (session_settings s t c)).
Proof. intros _. exists s, c. reflexivity. Qed.

Lemma filter_app_nil {A : Type} (f : A -> bool) (t u : list A) :
  filter f u = [] -> filter f (t ++ u) = filter f t.
Proof. intros H. rewrite filter_app, H. apply app_nil_r. Qed.

Lemma deletes_nothing_ret {A : Type} (a : A) : deletes_nothing (ret a).
Proof. intros w. reflexivity. Qed.

Lemma deletes_nothing_raise {A : Type} (e : exn) : deletes_nothing (@raise A e).
Proof. intros w. reflexivity. Qed.

Lemma deletes_nothing_emit (e : event) :
  is_removal e = false -> deletes_nothing (emit e).
Proof.
  intros He w. cbn [emit final_world record trace].
  apply filter_app_nil. cbn [filter]. rewrite He. reflexivity.
Qed.

Lemma deletes_nothing_fs_op (op : filesystem -> exn + filesystem) (e : event) :
  is_removal e = false -> deletes_nothing (fs_op op e).
Proof.
  intros He w. unfold fs_op. destruct (op (fs w)); cbn [final_world trace];
    [reflexivity|].
  apply filter_app_nil. cbn [filter]. rewrite He. reflexivity.
Qed.

Lemma deletes_nothing_popen (command : string) (p : process) :
  deletes_nothing (popen command p).
Proof.
  intros w. cbn [popen final_world after_process trace].
  apply filter_app_nil. reflexivity.
Qed.

Lemma deletes_nothing_bind {A B : Type} (m : M A) (f : A -> M B) :
  deletes_nothing m -> (forall a, deletes_nothing (f a)) ->
  deletes_nothing (bind m f).
Proof.
  intros Hm Hf w. unfold bind. specialize (Hm w).
  destruct (m w) as [a w'|e w']; cbn [final_world] in *; [|exact Hm].
  rewrite (Hf a w'). exact Hm.
Qed.

Create HintDb quiet.
#[local] Hint Resolve deletes_nothing_ret deletes_nothing_raise
  deletes_nothing_emit deletes_nothing_fs_op deletes_nothing_popen : quiet.

Lemma position_removals (py_isdigit : string -> bool)
  (py_int : string -> option N) (i : nat) (line_no : string) (w : world) :
  filter is_removal (trace (final_world (position py_isdigit py_int i line_no w))) =
  filter is_removal (trace w).
Proof.
  rewrite position_cases.
  destruct (_ && _); [destruct (py_int line_no)|]; cbn [final_world trace];
    apply filter_app_nil; reflexivity.
Qed.

Section Invariants.

Variable str_of : json -> string.
Variable py_isdigit : string -> bool.
Variable py_int : string -> option N.

Lemma deletes_nothing_no_at (p : json) : deletes_nothing (no_at p).
Proof. destruct p; simpl; auto with quiet. Qed.

Lemma deletes_nothing_is_fatal (e : string) (from_path cim : json) :
  deletes_nothing (is_fatal e from_path cim).
Proof.
  unfold is_fatal.
  destruct (negb _); [auto with quiet|].
  destruct (PyStr.contains _ _); [auto with quiet|].
  apply deletes_nothing_bind; [apply deletes_nothing_no_at|].
  intros [|]; auto with quiet.
Qed.

Lemma deletes_nothing_scp (from_path to_path cim : json) (p : process) :
  deletes_nothing (scp str_of from_path to_path cim p).
Proof.
  unfold scp. apply deletes_nothing_bind; [apply deletes_nothing_popen|].
  intros [rc err].
  destruct (rc =? 1)%Z; [|auto with quiet].
  destruct (PyStr.nonempty err); [|auto with quiet].
  apply deletes_nothing_bind; [apply deletes_nothing_is_fatal|].
  intros [|]; [auto with quiet|].
  apply deletes_nothing_bind; [apply deletes_nothing_no_at|].
  intros a. destruct (a && truthy cim); [|auto with quiet].
  apply deletes_nothing_bind; [auto with quiet|].
  intros _. destruct to_path; simpl; auto with quiet.
Qed.

(** X12: opening and saving never delete anything: whatever the request
    and however it ends, the plugin has unlinked no file and removed no
    directory.  Only the closing of a view does that. *)
Theorem requests_delete_nothing (r : request) (w : world) :
  filter is_removal (trace (final_world (handle str_of py_isdigit py_int r w))) =
  filter is_removal (trace w).
Proof.
  destruct r as [g pr alias path c tmp p|i p]; cbn [handle].
  - destruct (resolved_config g pr c alias) as [| | | | |sc] eqn:Hres;
      try (unfold run; unfold resolved_config in Hres; rewrite Hres;
           solve [reflexivity | apply deletes_nothing_emit; reflexivity]).
    destruct (find_session
                (compose_scp_path str_of sc alias (fst (split_line path)))
                (views w)) as [i|] eqn:Hfind.
    + rewrite (run_reuse _ _ _ _ _ _ _ _ _ _ _ _ _ Hres Hfind).
      apply position_removals.
    + rewrite (run_new _ _ _ _ _ _ _ _ _ _ _ _ Hres Hfind).
      pose proof (deletes_nothing_scp
                    (JStr (compose_scp_path str_of sc alias (fst (split_line path))))
                    (JStr (OsPath.join tmp (OsPath.basename (fst (split_line path)))))
                    (resolved_policy g pr c) p (after_mkdtemp tmp w)) as Hq.
      assert (Hmk : filter is_removal (trace (after_mkdtemp tmp w)) =
                    filter is_removal (trace w))
        by (apply filter_app_nil; reflexivity).
      rewrite Hmk in Hq.
      destruct (scp str_of _ _ _ p (after_mkdtemp tmp w)) as [[] w2|e w2];
        cbn [final_world] in Hq; [|exact Hq].
      destruct (path_exists _ (fs w2)); cbn [final_world]; [|exact Hq].
      rewrite position_removals. cbn [with_session trace].
      rewrite filter_app_nil by reflexivity. exact Hq.
  - unfold save_view. destruct (nth_error (views w) i) as [v|]; [|reflexivity].
    unfold on_post_save. destruct (_ && _); [|reflexivity].
    apply deletes_nothing_scp.
Qed.

Lemma handle_adds_sessions (r : request) (w : world) :
  exists extra,
    views (final_world (handle str_of py_isdigit py_int r w)) = views w ++ extra /\
    Forall plugin_made extra.
Proof.
  destruct r as [g pr alias path c tmp p|i p]; cbn [handle].
  - destruct (resolved_config g pr c alias) as [| | | | |sc] eqn:Hres;
      try (exists []; split; [|constructor]; rewrite app_nil_r; unfold run;
           unfold resolved_config in Hres; rewrite Hres; reflexivity).
    destruct (find_session
                (compose_scp_path str_of sc alias (fst (split_line path)))
                (views w)) as [i|] eqn:Hfind.
    + exists []. split; [|constructor]. rewrite app_nil_r.
      rewrite (run_reuse _ _ _ _ _ _ _ _ _ _ _ _ _ Hres Hfind).
      apply position_views.
    + rewrite (run_new _ _ _ _ _ _ _ _ _ _ _ _ Hres Hfind).
      destruct (frames_scp str_of
                  (JStr (compose_scp_path str_of sc alias (fst (split_line path))))
                  (JStr (OsPath.join tmp (OsPath.basename (fst (split_line path)))))
                  (resolved_policy g pr c) p (after_mkdtemp tmp w)) as [Hv _].
      destruct (scp str_of _ _ _ p (after_mkdtemp tmp w)) as [[] w2|e w2];
        cbn [final_world views after_mkdtemp] in Hv.
      * destruct (path_exists _ (fs w2)); cbn [final_world].
        -- eexists. split.
           ++ rewrite position_views. cbn [with_session views].
              rewrite Hv. reflexivity.
           ++ constructor; [apply plugin_made_session|constructor].
        -- exists []. split; [|constructor]. rewrite app_nil_r. exact Hv.
      * exists []. split; [|constructor]. rewrite app_nil_r. exact Hv.
  - exists []. split; [|constructor]. rewrite app_nil_r. unfold save_view.
    destruct (nth_error (views w) i) as [v|]; [|reflexivity].
    unfold on_post_save.
    destruct (_ && _); [|reflexivity].
    apply frames_scp.
Qed.

(** X13: from a window in which no two views are sessions of the same
    remote file (a window without remote files, for one), every world
    the editor gets to by open commands, saves and closings is such a
    window again. *)
Theorem sessions_stay_apart (w0 w : world) :
  at_most_one_session (views w0) ->
  reachable_from str_of py_isdigit py_int w0 w ->
  at_most_one_session (views w).
Proof.
  intros H0. induction 1 as [|r w Hw IH|i w Hw IH].
  - exact H0.
  - destruct r as [g pr alias path c tmp p|i p]; cbn [handle].
    + apply run_at_most_one_session. exact IH.
    + assert (Hsame : views (final_world (save_view str_of i p w)) = views w).
      { unfold save_view. destruct (nth_error (views w) i) as [v|]; [|reflexivity].
        unfold on_post_save. destruct (_ && _); [|reflexivity].
        apply frames_scp. }
      rewrite Hsame. exact IH.
  - rewrite close_view_views. intros s.
    pose proof (filter_remove_nth_le (is_session_of s) (views w) i).
    specialize (IH s). lia.
Qed.

(** X14: from a window whose views are not marked [is_remote_edit], in
    every world the editor gets to, a view that is marked so was made by
    the open flow: its settings are the four the flow sets, its
    [temp_path] is the file the view shows, and saving it is the
    transfer of that file to its [scp_path] with its stored policy. *)
Theorem remote_edit_views_are_sessions (w0 w : world) (i : nat) (v : view)
  (p : process) :
  Forall plugin_made (views w0) ->
  reachable_from str_of py_isdigit py_int w0 w ->
  nth_error (views w) i = Some v ->
  truthy (dict_get "is_remote_edit" (vsettings v)) = true ->
  exists (s : string) (c : json),
    v = mkView (file_name v) (session_settings s (file_name v) c) /\
    save_view str_of i p w = scp str_of (JStr (file_name v)) (JStr s) c p w.
Proof.
  intros H0 Hreach Hnth Hmark.
  assert (Hall : Forall plugin_made (views w)).
  { clear Hnth Hmark. induction Hreach as [|r w Hw IH|j w Hw IH].
    - exact H0.
    - destruct (handle_adds_sessions r w) as (extra & Hex & Hextra).
      rewrite Hex. apply Forall_app. split; assumption.
    - rewrite close_view_views. apply Forall_remove_nth. exact IH. }
  rewrite Forall_forall in Hall.
  destruct (Hall v (nth_error_In _ _ Hnth) Hmark) as (s & c & Hv).
  exists s, c. split; [exact Hv|].
  unfold save_view. rewrite Hnth. rewrite Hv at 1. reflexivity.
Qed.

End Invariants.

Lemma sessions_stay_apart_witness :
  at_most_one_session
    (views (final_world
              (handle str_scalar PyStr.ascii_isdigit PyStr.ascii_int
                 (OpenRequest global_with_aliases None "prod" "/etc/app.conf"
                              (JBool true) "/tmp/tmpk3" copies_conf)
                 plain_world))).
Proof.
  apply (sessions_stay_apart str_scalar PyStr.ascii_isdigit PyStr.ascii_int plain_world).
  - intros s. simpl. lia.
  - apply from_handle. apply from_start.
Defined.

Lemma remote_edit_views_are_sessions_witness :
  let w := final_world
             (handle str_scalar PyStr.ascii_isdigit PyStr.ascii_int
                (OpenRequest global_with_aliases None "prod" "/etc/app.conf"
                             (JBool true) "/tmp/tmpk3" copies_conf)
                plain_world) in
  exists (s : string) (c : json),
    save_view str_scalar 1 exits_zero w =
    scp str_scalar (JStr local_conf) (JStr s) c exits_zero w.
Proof.
  intros w.
  assert (Hplain : Forall plugin_made (views plain_world)).
  { constructor; [|constructor]. intros H. discriminate H. }
  destruct (remote_edit_views_are_sessions str_scalar PyStr.ascii_isdigit PyStr.ascii_int plain_world w 1
              (mkView local_conf (session_settings remote_conf local_conf (JBool true)))
              exits_zero Hplain
              (from_handle str_scalar PyStr.ascii_isdigit PyStr.ascii_int plain_world _ plain_world
                           (from_start str_scalar PyStr.ascii_isdigit PyStr.ascii_int plain_world))
              eq_refl eq_refl)
    as (s & c & _ & Hsave).
  exists s, c. exact Hsave.
Defined.

Lemma aborted_open_keeps_directory_witness :
  let w := final_world
             (run str_scalar PyStr.ascii_isdigit PyStr.ascii_int global_with_aliases None "prod" "/etc/app.conf"
                  (JBool true) "/tmp/tmpk3" permission_denied plain_world) in
  views w = views plain_world /\ is_dir "/tmp/tmpk3" (fs w) = true.
Proof.
  intros w.
  exact (aborted_open_keeps_directory str_scalar PyStr.ascii_isdigit PyStr.ascii_int global_with_aliases None "prod"
           "/etc/app.conf" (JBool true) "/tmp/tmpk3" permission_denied
           plain_world w
           [("address", JStr "10.0.0.5"); ("username", JStr "dev")]
           eq_refl eq_refl eq_refl eq_refl eq_refl).
Defined.
